(** * Plantify disease detection: a shallow embedding of [app.py]

    The application is one Streamlit script.  Every user interaction runs it
    from top to bottom: three cached loaders, the page layout, the image
    ingestion column and the analysis column.  The embedding follows that
    order.  Calls into Streamlit, PIL, NumPy, Keras and [json] are effects of
    the script; they are recorded in a trace of events, and a Python
    exception is an explicit result that stops the run unless a [try] of the
    script handles it.

    Numbers: a probability, a confidence and a rescaled pixel are rationals
    ([Q]); a finite float is the rational it denotes, and the order of two
    finite floats is the order of those rationals.  Where the script lets
    NumPy round a Python literal to single precision before a comparison,
    the rounded value is written out.  The digits that Python prints for a
    float are not modelled. *)

From Stdlib Require Import QArith Lqa Ascii.
From stdpp Require Import base strings list gmap.

Local Open Scope string_scope.
Local Open Scope list_scope.

(** ** Exceptions and results *)

Module Py.

(** The exception classes the script can meet.  [except Exception] catches
    all of them; [except FileNotFoundError] catches only the first. *)
Inductive exn_class : Set :=
| FileNotFoundError
| PermissionError
| JSONDecodeError
| UnidentifiedImageError
| OSError
| ValueError
| IndexError.

Record exn : Set := mk_exn { exn_kind : exn_class; exn_msg : string }.

Inductive result (A : Type) : Type :=
| Return (a : A)
| Raise (e : exn).
Arguments Return {A} a.
Arguments Raise {A} e.

#[global] Instance exn_class_eq_dec : EqDecision exn_class.
Proof. solve_decision. Defined.

End Py.
Export Py.

(** ** NumPy: arrays and the reductions used by the script *)

Module Np.

(** An array is its shape and its flat buffer in row-major order. *)
Record ndarray (A : Type) : Type := mk_ndarray {
  shape : list nat;
  data : list A
}.
Arguments mk_ndarray {A} shape data.
Arguments shape {A} n.
Arguments data {A} n.

(** [a / 255.0] on an array of unsigned bytes: every entry is divided, the
    shape is kept. *)
Definition true_divide (a : ndarray Z) (d : Q) : ndarray Q :=
  mk_ndarray (shape a) (map (fun v => inject_Z v / d)%Q (data a)).

(** [np.expand_dims(a, axis=0)]. *)
Definition expand_dims0 {A} (a : ndarray A) : ndarray A :=
  mk_ndarray (1%nat :: shape a) (data a).

(** [a > b] on finite floats. *)
Definition gt (a b : Q) : bool := negb (Qle_bool a b).

(** [np.maximum]: keeps the left operand unless the right one is larger. *)
Definition maximum (a b : Q) : Q := if gt b a then b else a.

(** The loop of [np.argmax] over a flat buffer: [mp] is the best value seen
    so far, [idx] its position, [i] the position of the head of [ip].  The
    best is replaced only by a strictly larger entry. *)
Fixpoint argmax_loop (ip : list Q) (i : nat) (mp : Q) (idx : nat) : nat :=
  match ip with
  | [] => idx
  | x :: ip' =>
      if gt x mp then argmax_loop ip' (S i) x i
      else argmax_loop ip' (S i) mp idx
  end.

Definition empty_sequence (f : string) : exn :=
  mk_exn ValueError ("attempt to get " +:+ f +:+ " of an empty sequence").

(** With no [axis] both reductions run over the flat buffer. *)
Definition argmax (a : ndarray Q) : result nat :=
  match data a with
  | [] => Raise (empty_sequence "argmax")
  | x :: ip => Return (argmax_loop ip 1 x 0)
  end.

Definition max (a : ndarray Q) : result Q :=
  match data a with
  | [] => Raise (empty_sequence "max")
  | x :: ip => Return (fold_left maximum ip x)
  end.

End Np.
Export Np (ndarray, mk_ndarray, shape, data).

(** ** PIL images *)

Module PIL.

(** The 8-bit modes that the accepted file types (jpg, png, jpeg, bmp, webp)
    decode to. *)
Inductive Mode : Set := L | P | LA | RGB | RGBA | CMYK.

#[global] Instance Mode_eq_dec : EqDecision Mode.
Proof. solve_decision. Defined.

Definition bands (m : Mode) : nat :=
  match m with
  | L | P => 1
  | LA => 2
  | RGB => 3
  | RGBA | CMYK => 4
  end.

(** A decoded raster, pixels in memory: [size] is (width, height); [im]
    holds one pixel per entry, row after row, and a pixel is the list of its
    band values. *)
Record Image : Type := mk_image {
  mode : Mode;
  size : nat * nat;
  im : list (list Z)
}.

Definition width (img : Image) : nat := fst (size img).
Definition height (img : Image) : nat := snd (size img).

Definition is_uint8 (v : Z) : bool := (0 <=? v)%Z && (v <=? 255)%Z.

Definition valid_pixel (m : Mode) (px : list Z) : bool :=
  (length px =? bands m)%nat && forallb is_uint8 px.

Definition valid (img : Image) : bool :=
  (length (im img) =? width img * height img)%nat
  && forallb (valid_pixel (mode img)) (im img).

(** The resampling kernel of [Image.resize] (bicubic by default) belongs to
    the imaging library; the script only relies on its contract. *)
Class Resampler : Type := resample : Image -> nat * nat -> Image.

(** The contract: the requested size, the same mode, bytes clipped to the
    8-bit range. *)
Record resampler_ok (R : Resampler) : Prop := {
  resample_size : forall img sz, size (resample img sz) = sz;
  resample_mode : forall img sz, mode (resample img sz) = mode img;
  resample_valid : forall img sz,
    valid img = true -> valid (resample img sz) = true
}.

(** [Image.resize(size)] on an image whose pixels are in memory (the
    script resizes only after [st.image] has decoded them, so the [load()]
    that opens the method finds nothing left to read): an image that
    already has the requested size is returned as a copy, any other is
    resampled. *)
Definition resize `{Resampler} (img : Image) (sz : nat * nat) : Image :=
  if decide (size img = sz) then img else resample img sz.

(** Nearest-neighbour resampling, the simplest kernel that meets the
    contract. *)
Definition nearest_pixel (img : Image) (tw th x y : nat) : list Z :=
  let sx := (x * width img / tw)%nat in
  let sy := (y * height img / th)%nat in
  nth (sy * width img + sx) (im img) (repeat 0%Z (bands (mode img))).

Definition nearest : Resampler := fun img sz =>
  let '(tw, th) := sz in
  mk_image (mode img) (tw, th)
    (flat_map (fun y => map (fun x => nearest_pixel img tw th x y) (seq 0 tw))
       (seq 0 th)).

(** The array view of an image ([__array_interface__]): height and width,
    and a trailing axis for the bands only when there is more than one. *)
Definition array_shape (img : Image) : list nat :=
  height img :: width img ::
    (if decide (bands (mode img) = 1%nat) then [] else [bands (mode img)]).

End PIL.
Export PIL (Image, mk_image, Resampler, resample).

(** [np.array(img)]. *)
Definition np_array (img : Image) : ndarray Z :=
  mk_ndarray (PIL.array_shape img) (concat (PIL.im img)).

(** ** Preprocessing (lines 110-112) *)

Definition preprocess `{Resampler} (image : Image) : ndarray Q :=
  let img := PIL.resize image (128, 128)%nat in
  let img_array := Np.true_divide (np_array img) 255 in
  Np.expand_dims0 img_array.

(** ** Result interpretation (lines 116-118 and 128-133) *)

(** [class_names[predicted_idx]] on a Python list. *)
Definition getitem (class_names : list string) (i : nat) : result string :=
  match class_names !! i with
  | Some c => Return c
  | None => Raise (mk_exn IndexError "list index out of range")
  end.

Record Prediction : Type := mk_prediction {
  predicted_idx : nat;
  confidence : Q;
  predicted_class : string
}.

(** [predictions] is the classifier's output, an array of shape [(1, N)]. *)
Definition interpret (predictions : ndarray Q) (class_names : list string)
  : result Prediction :=
  match Np.argmax predictions with
  | Raise e => Raise e
  | Return idx =>
      match Np.max predictions with
      | Raise e => Raise e
      | Return conf =>
          match getitem class_names idx with
          | Raise e => Raise e
          | Return cls => Return (mk_prediction idx conf cls)
          end
      end
  end.

Inductive Tier : Set := High | Moderate | Low.

(** [confidence] is an [np.float32] (the classifier's output type), and the
    other side of each comparison is a Python float literal.  NumPy (from
    version 2 on) rounds such a literal to float32 and compares in single
    precision.  Floats between 1/2 and 1 are the multiples of 2^-24, and the
    ones nearest to 0.85 and 0.6 are 14260634 / 2^24 and 10066330 / 2^24. *)
Definition float32_085 : Q := 7130317 # 8388608.
Definition float32_06 : Q := 5033165 # 8388608.

(** The [if / elif / else] on [confidence]. *)
Definition confidence_tier (confidence : Q) : Tier :=
  if Np.gt confidence float32_085 then High
  else if Np.gt confidence float32_06 then Moderate
  else Low.

Definition tier_message (t : Tier) : string :=
  match t with
  | High => "High confidence in this prediction."
  | Moderate => "Moderate confidence. The result may be less accurate."
  | Low => "Low confidence. Please try a clearer, more centered image."
  end.

(** ** Python strings *)

Module Str.

(** [str.lower] on ASCII letters. *)
Definition lower_ascii (c : ascii) : ascii :=
  let n := nat_of_ascii c in
  if (65 <=? n)%nat && (n <=? 90)%nat then ascii_of_nat (n + 32) else c.

Fixpoint lower (s : string) : string :=
  match s with
  | EmptyString => EmptyString
  | String c s' => String (lower_ascii c) (lower s')
  end.

(** [needle in s]. *)
Definition contains (needle s : string) : bool :=
  match String.index 0 needle s with
  | Some _ => true
  | None => false
  end.

End Str.

(** ** The Keras model *)

(** A loaded model is used only through [predict], which returns an array
    of shape [(1, N)] or raises (for instance on an input of the wrong
    shape). *)
Record Model : Type := mk_model {
  predict : ndarray Q -> result (ndarray Q)
}.

(** ** Truth values

    The tests [if x:] of the script follow Python's protocol: [None] is
    false, an empty list or dict is false, any other object here is true. *)

Class Truthy (A : Type) : Type := truth : A -> bool.

#[global] Instance list_truthy {A} : Truthy (list A) :=
  fun l => match l with [] => false | _ :: _ => true end.

#[global] Instance dict_truthy {V} : Truthy (gmap string V) :=
  fun m => negb (bool_decide (m = ∅)).

(** An image, an uploaded file and a model define neither [__bool__] nor
    [__len__]: the only false value of such a variable is [None]. *)
#[global] Instance object_truthy {A} : Truthy (option A) :=
  fun o => match o with None => false | Some _ => true end.

(** ** The trace of a run

    One event per call.  [st_metric_percent c l v] is the call
    [c.metric(l, f"{v*100:.2f}%")]: the text shown is what Python prints for
    the single precision product, and the event records the value [v] that
    is formatted. *)

Inductive Event : Type :=
| st_error (body : string)
| st_success (body : string)
| st_warning (body : string)
| st_info (body : string)
| st_write (body : string)
| st_markdown (body : string)
| st_header (body : string)
| st_subheader (body : string)
| st_metric (column label value : string)
| st_metric_percent (column label : string) (value : Q)
| st_image (image : Image) (caption : string)
| st_balloons
| st_tabs (titles : list string)
| st_with (container : string)
| st_columns (spec : string)
| st_set_page_config (page_title page_icon layout : string)
| st_sidebar_title (body : string)
| st_sidebar_info (body : string)
| st_sidebar_radio (label : string)
| st_file_uploader (label : string) (types : list string)
| st_camera_input (label : string)
| st_spinner (text : string)
| time_sleep (secs : nat)
| image_resize (sz : nat * nat)
| model_predict (x : ndarray Q).

(** The events of the inference stages: preprocessing and the forward
    pass. *)
Definition is_inference (ev : Event) : bool :=
  match ev with
  | image_resize _ | model_predict _ => true
  | _ => false
  end.

Definition no_inference (trace : list Event) : bool :=
  forallb (fun ev => negb (is_inference ev)) trace.

Definition is_error (ev : Event) : bool :=
  match ev with st_error _ => true | _ => false end.

(** ** Runs: a trace and an outcome *)

Record M (A : Type) : Type := Run {
  trace : list Event;
  outcome : result A
}.
Arguments Run {A} trace outcome.
Arguments trace {A} m.
Arguments outcome {A} m.

#[global] Instance M_ret : MRet M := fun A a => Run [] (Return a).

#[global] Instance M_bind : MBind M := fun A B f m =>
  match outcome m with
  | Raise e => Run (trace m) (Raise e)
  | Return a => let r := f a in Run (trace m ++ trace r) (outcome r)
  end.

Definition emit (ev : Event) : M unit := Run [ev] (Return tt).
Definition raise {A} (e : exn) : M A := Run [] (Raise e).
Definition lift {A} (r : result A) : M A := Run [] r.

(** [try: body / except <classes> as e: handler e]. *)
Definition try_except {A} (body : M A) (catches : exn_class -> bool)
    (handler : exn -> M A) : M A :=
  match outcome body with
  | Return _ => body
  | Raise e =>
      if catches (exn_kind e)
      then let h := handler e in Run (trace body ++ trace h) (outcome h)
      else body
  end.

Definition Exception : exn_class -> bool := fun _ => true.
Definition only (c : exn_class) : exn_class -> bool :=
  fun k => bool_decide (k = c).

(** ** What a run depends on *)

(** A JSON file on disk, as [open] and [json.load] see it: absent ([None]),
    present but not readable by the process, present with text that does
    not parse, or present with a document. *)
Inductive Contents (A : Type) : Type :=
| unreadable
| malformed
| document (a : A).
Arguments unreadable {A}.
Arguments malformed {A}.
Arguments document {A} a.

(** The model file: absent, present but not a loadable Keras archive, or a
    saved model. *)
Inductive ModelFile : Type :=
| model_missing
| model_incompatible
| saved_model (m : Model).

(** What the browser hands over: bytes that [Image.open] rejects; bytes
    with a sound header and damaged pixel data, which [Image.open] accepts
    and whose first use fails; or bytes of a picture. *)
Inductive ImageFile : Type :=
| undecodable
| damaged
| picture (img : Image).

(** What [Image.open] returns: the file is identified, the pixels are
    decoded when they are first used. *)
Inductive Opened : Type :=
| intact (img : Image)
| truncated.

Inductive UploadOption : Set := UploadImage | CameraCapture.

(** A record of the disease dictionary: optional text fields by name. *)
Abbreviation Info := (gmap string string).

Record World : Type := mk_world {
  trained_model_keras : ModelFile;
  class_names_json : option (Contents (list string));
  disease_info_json : option (Contents (gmap string Info));
  upload_option : UploadOption;
  uploaded_file : option ImageFile;
  camera_input : option ImageFile;
  resampler : Resampler
}.

(** ** Library calls that can raise *)

Definition load_model (path : string) (f : ModelFile) : M Model :=
  match f with
  | model_missing | model_incompatible =>
      raise (mk_exn ValueError
               ("File not found: filepath=" +:+ path +:+
                ". Please ensure the file is an accessible `.keras` zip file."))
  | saved_model m => mret m
  end.

Definition open {A} (path : string) (f : option (Contents A)) : M (Contents A) :=
  match f with
  | None =>
      raise (mk_exn FileNotFoundError
               ("[Errno 2] No such file or directory: '" +:+ path +:+ "'"))
  | Some unreadable =>
      raise (mk_exn PermissionError
               ("[Errno 13] Permission denied: '" +:+ path +:+ "'"))
  | Some c => mret c
  end.

(** [json.load] on an opened file ([open] has raised on an unreadable one:
    that case is not reached). *)
Definition json_load {A} (f : Contents A) : M A :=
  match f with
  | unreadable =>
      raise (mk_exn PermissionError "[Errno 13] Permission denied")
  | malformed =>
      raise (mk_exn JSONDecodeError "Expecting value: line 1 column 1 (char 0)")
  | document a => mret a
  end.

(** The message of a rejected file goes on with the repr of the file
    object, which is left out. *)
Definition Image_open (f : ImageFile) : M Opened :=
  match f with
  | undecodable =>
      raise (mk_exn UnidentifiedImageError "cannot identify image file")
  | damaged => mret truncated
  | picture img => mret (intact img)
  end.

(** [st.image(image, caption=...)] encodes the picture for the browser and
    so decodes its pixels: on damaged data PIL raises [OSError].  After the
    call the pixels of [image] are in memory. *)
Definition show_image (image : Opened) (caption : string) : M Image :=
  match image with
  | intact img => emit (st_image img caption);; mret img
  | truncated => raise (mk_exn OSError "image file is truncated")
  end.

(** ** The loaders (lines 12-55) *)

Definition load_app_model (w : World) : M (option Model) :=
  try_except
    (model ← load_model "trained_model.keras" (trained_model_keras w);
     mret (Some model))
    Exception
    (fun e =>
       emit (st_error ("Error loading model: " +:+ exn_msg e));;
       emit (st_error "Please ensure 'trained_model.keras' is the correct binary model file and is in the same folder as app.py.");;
       mret None).

Definition load_class_names (w : World) : M (list string) :=
  try_except
    (f ← open "class_names.json" (class_names_json w);
     class_names ← json_load f;
     mret class_names)
    (only FileNotFoundError)
    (fun _ =>
       emit (st_error "Error: 'class_names.json' not found.");;
       mret []).

Definition load_disease_info (w : World) : M (gmap string Info) :=
  try_except
    (f ← open "disease_info.json" (disease_info_json w);
     disease_info ← json_load f;
     mret disease_info)
    (only FileNotFoundError)
    (fun _ =>
       emit (st_error "Error: 'disease_info.json' not found.");;
       mret ∅).

(** ** The page (lines 60-74) *)

Definition page_setup (w : World) : M UploadOption :=
  emit (st_set_page_config "Plantify Disease Detection" "🌿" "wide");;
  emit (st_markdown "<h1 style='text-align: center; color: #4CAF50;'>🌿 Plantify Disease Detection 🌿</h1>");;
  emit (st_markdown "<h3 style='text-align: center; color: #555;'>Upload a leaf image and let AI analyze its health.</h3>");;
  emit (st_markdown "---");;
  emit (st_sidebar_title "About");;
  emit (st_sidebar_info "This app uses AI to detect plant diseases from leaf images. Upload an image or use your camera to get started!");;
  emit (st_sidebar_title "📸 Upload Options");;
  emit (st_sidebar_radio "Choose input method:");;
  mret (upload_option w).

(** ** Column 1: image ingestion (lines 80-99)

    The [try] of the upload branch covers [Image.open] only; the preview
    is outside it.  The column returns the image with its pixels in memory:
    the preview has decoded them. *)

Definition provide_image (w : World) (upload_option : UploadOption)
  : M (option Image) :=
  emit (st_with "col1");;
  emit (st_header "1. Provide an Image");;
  image ←
    match upload_option with
    | UploadImage =>
        emit (st_file_uploader "Click to upload a plant leaf image:"
                ["jpg"; "png"; "jpeg"; "bmp"; "webp"]);;
        match uploaded_file w with
        | Some f =>
            try_except
              (image ← Image_open f; mret (Some image))
              Exception
              (fun e =>
                 emit (st_error ("Error opening image file: " +:+ exn_msg e
                                   +:+ ". Please try a different file."));;
                 mret None)
        | None => mret None
        end
    | CameraCapture =>
        emit (st_camera_input "Take a picture of the leaf");;
        match camera_input w with
        | Some f => image ← Image_open f; mret (Some image)
        | None => mret None
        end
    end;
  match image with
  | Some opened => img ← show_image opened "Your Image"; mret (Some img)
  | None => mret None
  end.

(** ** Column 2: prediction and presentation (lines 101-176) *)

(** The body of the spinner block. *)
Definition prediction_logic `{Resampler} (image : Image) (model : Model)
    (class_names : list string) : M Prediction :=
  emit (st_spinner "🧠 Analyzing the image... Please wait.");;
  emit (time_sleep 1);;
  emit (image_resize (128, 128)%nat);;
  let img_array := preprocess image in
  emit (model_predict img_array);;
  predictions ← lift (predict model img_array);
  lift (interpret predictions class_names).

Definition confidence_banner (confidence : Q) : M unit :=
  match confidence_tier confidence with
  | High => emit (st_success (tier_message High))
  | Moderate => emit (st_warning (tier_message Moderate))
  | Low => emit (st_error (tier_message Low))
  end.

Definition not_available : string :=
  "Information for this disease is not available in the database.".

Definition tab_titles : list string :=
  ["Description"; "Symptoms"; "Prevention"; "Remedy"].

Definition get (info : Info) (key fallback : string) : string :=
  default fallback (info !! key).

Definition healthy_branch (info : Info) : M unit :=
  emit st_balloons;;
  emit (st_success ("**Status: " +:+ get info "title" "Healthy" +:+ "** 🎉"));;
  emit (st_write (get info "description"
          "The plant appears to be in good health. Keep up the good care!"));;
  emit (st_write ("**Symptoms:** " +:+ get info "symptoms" "N/A"));;
  emit (st_write ("**Prevention:** " +:+ get info "prevention" "N/A")).

Definition disease_branch (predicted_class : string) (info : Info) : M unit :=
  emit (st_tabs tab_titles);;
  emit (st_with "tab1");;
  emit (st_subheader (get info "title" predicted_class));;
  emit (st_write (get info "description" "No description available."));;
  emit (st_with "tab2");;
  emit (st_write (get info "symptoms" "No symptoms information available."));;
  emit (st_with "tab3");;
  emit (st_write (get info "prevention" "No prevention information available."));;
  emit (st_with "tab4");;
  emit (st_write (get info "remedy" "No remedy information available.")).

Definition disease_information (predicted_class : string)
    (disease_info : gmap string Info) : M unit :=
  emit (st_markdown "---");;
  emit (st_subheader "📝 Disease Information");;
  match disease_info !! predicted_class with
  | Some info =>
      if Str.contains "healthy" (Str.lower predicted_class)
      then healthy_branch info
      else disease_branch predicted_class info
  | None => emit (st_error not_available)
  end.

Definition result_display (p : Prediction) : M unit :=
  emit (st_subheader "✅ Prediction");;
  emit (st_columns "2");;
  emit (st_metric "c1" "Detected Disease:" (predicted_class p));;
  emit (st_metric_percent "c2" "Confidence:" (confidence p));;
  confidence_banner (confidence p).

Definition analysis_result `{Resampler} (image : option Image)
    (model : option Model) (class_names : list string)
    (disease_info : gmap string Info) : M unit :=
  emit (st_with "col2");;
  emit (st_header "2. Analysis Result");;
  if truth image && truth model && truth class_names && truth disease_info
  then
    match image, model with
    | Some img, Some mdl =>
        p ← prediction_logic img mdl class_names;
        result_display p;;
        disease_information (predicted_class p) disease_info
    | _, _ => mret tt
    end
  else if negb (truth model && truth class_names && truth disease_info)
  then emit (st_error "App is not fully loaded. Check for file loading errors above.")
  else emit (st_info "Please upload an image or use the camera to get an analysis.").

(** ** The script *)

Definition main (w : World) : M unit :=
  model ← load_app_model w;
  class_names ← load_class_names w;
  disease_info ← load_disease_info w;
  upload_option ← page_setup w;
  emit (st_columns "[1, 1.2]");;
  image ← provide_image w upload_option;
  analysis_result (H := resampler w) image model class_names disease_info.

(** * Specification vocabulary *)

(** A probability vector: entries are not negative and sum to one. *)
Definition Qsum (p : list Q) : Q := fold_right Qplus 0%Q p.

Definition prob_vector (p : list Q) : Prop :=
  Forall (fun x => (0 <= x)%Q) p /\ (Qsum p == 1)%Q.

(** [idx] is the first position of [p] that holds its largest entry, and
    [mp] is that entry. *)
Definition first_max (p : list Q) (idx : nat) (mp : Q) : Prop :=
  p !! idx = Some mp /\
  (forall j x, p !! j = Some x -> (x <= mp)%Q) /\
  (forall j x, (j < idx)%nat -> p !! j = Some x -> (x < mp)%Q).

(** The rescaled values of an image's own bytes. *)
Definition rescaled (img : Image) : list Q :=
  map (fun v => inject_Z v / 255)%Q (concat (PIL.im img)).

(** Preprocessing leaves the values of an image as they are. *)
Definition values_unchanged `{Resampler} (image : Image) : Prop :=
  Forall2 Qeq (data (preprocess image)) (map inject_Z (concat (PIL.im image))).


Definition is_not_available (ev : Event) : bool :=
  match ev with
  | st_error body => String.eqb body not_available
  | _ => false
  end.

(** The events that render an information section or the healthy block. *)
Definition is_information (ev : Event) : bool :=
  match ev with
  | st_tabs _ | st_write _ | st_balloons | st_success _ => true
  | _ => false
  end.

(** * Sample inputs *)

Module Sample.

Definition leaf_rgb : Image :=
  mk_image PIL.RGB (2, 2)%nat
    [[34; 139; 34]; [0; 255; 0]; [255; 255; 255]; [85; 107; 47]]%Z.

Definition leaf_gray : Image :=
  mk_image PIL.L (2, 2)%nat [[0]; [90]; [180]; [255]]%Z.

Definition leaf_rgba : Image :=
  mk_image PIL.RGBA (1, 1)%nat [[34; 139; 34; 255]]%Z.

(** A 128 x 128 RGB image whose bytes are all 1. *)
Definition ones_rgb : Image :=
  mk_image PIL.RGB (128, 128)%nat (repeat [1; 1; 1]%Z (128 * 128)).

Definition shape_error : exn :=
  mk_exn ValueError "Input 0 of layer is incompatible with the layer".

(** A classifier with a fixed output row that accepts only the layout it
    was trained on. *)
Definition fixed_model (row : list Q) : Model :=
  mk_model (fun x =>
    if decide (shape x = [1; 128; 128; 3]%nat)
    then Return (mk_ndarray [1%nat; length row] row)
    else Raise shape_error).

Definition two_class : Model := fixed_model [2 # 10; 8 # 10]%Q.
Definition three_class : Model := fixed_model [1 # 10; 2 # 10; 7 # 10]%Q.

Definition labels : list string := ["A"; "B"].

Definition info_A : gmap string Info :=
  {[ "A" := {[ "description" := "d" ]} ]}.

Definition ready : World :=
  mk_world (saved_model two_class) (Some (document labels))
    (Some (document info_A)) UploadImage (Some (picture leaf_rgb)) None
    PIL.nearest.

Definition no_model : World :=
  mk_world model_missing (Some (document labels)) (Some (document info_A))
    UploadImage (Some (picture leaf_rgb)) None PIL.nearest.

Definition garbled_json : World :=
  mk_world (saved_model two_class) (Some malformed) (Some malformed)
    UploadImage (Some (picture leaf_rgb)) None PIL.nearest.

Definition garbled_info : World :=
  mk_world (saved_model two_class) (Some (document labels)) (Some malformed)
    UploadImage (Some (picture leaf_rgb)) None PIL.nearest.

Definition wide_model : World :=
  mk_world (saved_model three_class) (Some (document labels))
    (Some (document info_A)) UploadImage (Some (picture leaf_rgb)) None
    PIL.nearest.

Definition bad_upload : World :=
  mk_world (saved_model two_class) (Some (document labels))
    (Some (document info_A)) UploadImage (Some undecodable) None PIL.nearest.

Definition damaged_upload : World :=
  mk_world (saved_model two_class) (Some (document labels))
    (Some (document info_A)) UploadImage (Some damaged) None PIL.nearest.

Definition bad_capture : World :=
  mk_world (saved_model two_class) (Some (document labels))
    (Some (document info_A)) CameraCapture None (Some undecodable)
    PIL.nearest.

End Sample.

(** * Vocabulary for the properties of whole runs *)

Definition is_predict (ev : Event) : bool :=
  match ev with model_predict _ => true | _ => false end.

Definition is_resize (ev : Event) : bool :=
  match ev with image_resize _ => true | _ => false end.

Definition is_preview (ev : Event) : bool :=
  match ev with st_image _ _ => true | _ => false end.

Definition calls (which : Event -> bool) (tr : list Event) : nat :=
  length (List.filter which tr).

(** The bodies of the [st.write] calls of a trace, in order. *)
Definition written (tr : list Event) : list string :=
  flat_map (fun ev => match ev with st_write body => [body] | _ => [] end) tr.

(** The number of entries that a shape announces. *)
Definition size_of (sh : list nat) : nat := fold_right Nat.mul 1%nat sh.

Definition tier_rank (t : Tier) : nat :=
  match t with Low => 0 | Moderate => 1 | High => 2 end.

(** The user gave no file, or a file that [Image.open] rejects, in upload
    mode, or no frame in camera mode. *)
Definition image_absent (w : World) : bool :=
  match upload_option w with
  | UploadImage =>
      match uploaded_file w with
      | None | Some undecodable => true
      | Some damaged | Some (picture _) => false
      end
  | CameraCapture =>
      match camera_input w with None => true | Some _ => false end
  end.


(** One of the three resources is not there after loading: the model file
    does not load, or a JSON file is missing or holds an empty document. *)
Definition resource_unavailable (w : World) : bool :=
  match trained_model_keras w with saved_model _ => false | _ => true end
  || match class_names_json w with
     | Some (document l) => negb (truth l)
     | _ => true
     end
  || match disease_info_json w with
     | Some (document d) => negb (truth d)
     | _ => true
     end.

(** An input on which an exception leaves the script before the analysis
    column: a JSON file that cannot be read or does not parse, a captured
    frame that does not decode, or a picture (uploaded or captured) with
    damaged pixel data. *)
Definition raises_before_gate (w : World) : bool :=
  match class_names_json w with
  | Some unreadable | Some malformed => true
  | _ => false
  end
  || match disease_info_json w with
     | Some unreadable | Some malformed => true
     | _ => false
     end
  || match upload_option w with
     | UploadImage =>
         match uploaded_file w with Some damaged => true | _ => false end
     | CameraCapture =>
         match camera_input w with
         | Some undecodable | Some damaged => true
         | _ => false
         end
     end.

Definition not_loaded : string :=
  "App is not fully loaded. Check for file loading errors above.".

Definition please_upload : string :=
  "Please upload an image or use the camera to get an analysis.".

(** * Properties *)

(** ** Comparisons *)

Lemma gt_true a b : Np.gt a b = true <-> (b < a)%Q.
Proof.
  unfold Np.gt. rewrite negb_true_iff.
  destruct (Qle_bool a b) eqn:E.
  - apply Qle_bool_iff in E. split; [discriminate|]. intros H.
    exfalso. apply (Qlt_not_le _ _ H E).
  - split; [intros _|reflexivity].
    apply Qnot_le_lt. intros H. apply Qle_bool_iff in H. congruence.
Qed.

Lemma gt_false a b : Np.gt a b = false <-> (a <= b)%Q.
Proof.
  unfold Np.gt. rewrite negb_false_iff. apply Qle_bool_iff.
Qed.

(** ** The argmax loop keeps the first maximum *)

Section Argmax.

Implicit Types (p pre ip : list Q) (idx : nat) (mp x : Q).

Lemma first_max_singleton x : first_max [x] 0 x.
Proof.
  repeat split.
  - intros [|j] y Hy; simpl in Hy; [|destruct j; discriminate].
    injection Hy as <-. apply Qle_refl.
  - intros j y Hj. lia.
Qed.

Lemma first_max_keep pre idx mp x :
  first_max pre idx mp -> (x <= mp)%Q -> first_max (pre ++ [x]) idx mp.
Proof.
  intros (Hi & Hle & Hlt) Hx. repeat split.
  - rewrite lookup_app_l; [exact Hi|]. by eapply lookup_lt_Some.
  - intros j y Hy. apply lookup_app_Some in Hy as [Hy|[_ Hy]]; [by eapply Hle|].
    apply list_lookup_singleton_Some in Hy as [_ <-]. exact Hx.
  - intros j y Hj Hy. apply lookup_app_Some in Hy as [Hy|[Hge _]]; [by eapply Hlt|].
    apply lookup_lt_Some in Hi. lia.
Qed.

Lemma first_max_replace pre idx mp x :
  first_max pre idx mp -> (mp < x)%Q -> first_max (pre ++ [x]) (length pre) x.
Proof.
  intros (Hi & Hle & Hlt) Hx. repeat split.
  - rewrite lookup_app_r; [|lia]. by rewrite Nat.sub_diag.
  - intros j y Hy. apply lookup_app_Some in Hy as [Hy|[_ Hy]].
    + apply Qle_trans with mp; [by eapply Hle|by apply Qlt_le_weak].
    + apply list_lookup_singleton_Some in Hy as [_ <-]. apply Qle_refl.
  - intros j y Hj Hy. rewrite lookup_app_l in Hy; [|exact Hj].
    apply Qle_lt_trans with mp; [by eapply Hle|exact Hx].
Qed.

Lemma argmax_loop_first_max ip : forall pre idx mp,
  first_max pre idx mp ->
  first_max (pre ++ ip)
    (Np.argmax_loop ip (length pre) mp idx) (fold_left Np.maximum ip mp).
Proof.
  induction ip as [|x ip IH]; intros pre idx mp H; simpl.
  - by rewrite app_nil_r.
  - replace (pre ++ x :: ip) with ((pre ++ [x]) ++ ip) by by rewrite <- app_assoc.
    replace (S (length pre)) with (length (pre ++ [x]))
      by (rewrite length_app; simpl; lia).
    unfold Np.maximum at 2. destruct (Np.gt x mp) eqn:E.
    + apply IH. apply first_max_replace with idx mp; [exact H|by apply gt_true].
    + apply IH. apply first_max_keep; [exact H|by apply gt_false].
Qed.

Lemma argmax_max_first_max (sh : list nat) p :
  p <> [] ->
  exists idx mp,
    Np.argmax (mk_ndarray sh p) = Return idx /\
    Np.max (mk_ndarray sh p) = Return mp /\
    first_max p idx mp.
Proof.
  intros Hp. destruct p as [|x ip]; [done|].
  unfold Np.argmax, Np.max. simpl.
  eexists _, _. split; [reflexivity|]. split; [reflexivity|].
  apply (argmax_loop_first_max ip [x] 0%nat x), first_max_singleton.
Qed.

Lemma prob_vector_nonempty p : prob_vector p -> p <> [].
Proof.
  intros [_ Hs] ->. simpl in Hs. discriminate.
Qed.

Lemma first_max_lt_length p idx mp : first_max p idx mp -> (idx < length p)%nat.
Proof. intros (Hi & _). by eapply lookup_lt_Some. Qed.

End Argmax.

(** C1: on a probability vector of the classifier's output row and a label
    list of the same length, the interpretation returns; the predicted index
    is the first index that holds the largest entry, the confidence is that
    entry, and the predicted class is the label at that index. *)
Theorem stable_argmax_prediction (p : list Q) (class_names : list string) :
  prob_vector p ->
  length class_names = length p ->
  exists r,
    interpret (mk_ndarray [1%nat; length p] p) class_names = Return r /\
    first_max p (predicted_idx r) (confidence r) /\
    class_names !! predicted_idx r = Some (predicted_class r).
Proof.
  intros Hp Hlen.
  destruct (argmax_max_first_max [1%nat; length p] p (prob_vector_nonempty p Hp))
    as (idx & mp & Ha & Hm & Hfirst).
  pose proof (first_max_lt_length _ _ _ Hfirst) as Hlt.
  destruct (lookup_lt_is_Some_2 class_names idx) as [cls Hcls]; [lia|].
  exists (mk_prediction idx mp cls).
  unfold interpret, getitem. rewrite Ha, Hm, Hcls.
  split; [reflexivity|]. split; [exact Hfirst|exact Hcls].
Qed.

Lemma stable_argmax_prediction_witness :
  exists r,
    interpret (mk_ndarray [1; 2]%nat [2 # 10; 8 # 10]%Q) Sample.labels = Return r /\
    first_max [2 # 10; 8 # 10]%Q (predicted_idx r) (confidence r) /\
    Sample.labels !! predicted_idx r = Some (predicted_class r).
Proof.
  apply (stable_argmax_prediction [2 # 10; 8 # 10]%Q Sample.labels).
  - split; [repeat constructor; discriminate | reflexivity].
  - reflexivity.
Defined.

(** The round trip of the labels ["A"; "B"] and the vector [0.2; 0.8]. *)
Example interpret_round_trip :
  interpret (mk_ndarray [1; 2]%nat [2 # 10; 8 # 10]%Q) Sample.labels
  = Return (mk_prediction 1 (8 # 10) "B").
Proof. reflexivity. Qed.

(** A tie goes to the first of the equal entries. *)
Example argmax_tie :
  Np.argmax (mk_ndarray [1; 3]%nat [1 # 4; 3 # 8; 3 # 8]%Q) = Return 1%nat.
Proof. reflexivity. Qed.






(** ** Images, resizing and rescaling *)

Section Preprocessing.

Context {R : Resampler}.

Lemma resize_same_size (img : Image) : PIL.resize img (PIL.size img) = img.
Proof. unfold PIL.resize. by rewrite decide_True. Qed.

Lemma resize_size (img : Image) sz :
  PIL.resampler_ok R -> PIL.size (PIL.resize img sz) = sz.
Proof.
  intros HR. unfold PIL.resize. case_decide; [done|]. apply HR.
Qed.

Lemma resize_mode (img : Image) sz :
  PIL.resampler_ok R -> PIL.mode (PIL.resize img sz) = PIL.mode img.
Proof.
  intros HR. unfold PIL.resize. case_decide; [done|]. apply HR.
Qed.

Lemma resize_valid (img : Image) sz :
  PIL.resampler_ok R -> PIL.valid img = true ->
  PIL.valid (PIL.resize img sz) = true.
Proof.
  intros HR Hv. unfold PIL.resize. case_decide; [done|]. by apply HR.
Qed.

Lemma preprocess_unfold (image : Image) :
  preprocess image =
  mk_ndarray (1%nat :: PIL.array_shape (PIL.resize image (128, 128)%nat))
    (rescaled (PIL.resize image (128, 128)%nat)).
Proof. reflexivity. Qed.

End Preprocessing.

Lemma concat_length_uniform {A} (n : nat) (l : list (list A)) :
  Forall (fun px => length px = n) l -> length (concat l) = (length l * n)%nat.
Proof.
  induction 1 as [|px l Hpx _ IH]; simpl; [done|].
  rewrite length_app, IH, Hpx. lia.
Qed.

Lemma valid_pixels (img : Image) :
  PIL.valid img = true ->
  length (PIL.im img) = (PIL.width img * PIL.height img)%nat /\
  Forall (fun px => length px = PIL.bands (PIL.mode img)) (PIL.im img) /\
  Forall (fun v => (0 <= v <= 255)%Z) (concat (PIL.im img)).
Proof.
  unfold PIL.valid. rewrite andb_true_iff, Nat.eqb_eq, forallb_forall.
  intros [Hlen Hpx]. split; [exact Hlen|].
  assert (Hall : Forall (fun px => PIL.valid_pixel (PIL.mode img) px = true)
                   (PIL.im img)).
  { apply List.Forall_forall. exact Hpx. }
  clear Hpx Hlen. induction Hall as [|px l Hpx _ [IH1 IH2]]; simpl.
  - split; constructor.
  - unfold PIL.valid_pixel in Hpx.
    apply andb_true_iff in Hpx as [Hn Hb]. apply Nat.eqb_eq in Hn.
    split; [by constructor|]. apply Forall_app. split; [|exact IH2].
    apply List.Forall_forall. intros v Hv.
    rewrite forallb_forall in Hb. specialize (Hb v Hv).
    unfold PIL.is_uint8 in Hb. lia.
Qed.

Lemma rescale_unit_interval (v : Z) :
  (0 <= v <= 255)%Z -> (0 <= inject_Z v / 255 <= 1)%Q.
Proof.
  intros Hv. unfold Qle, Qdiv, Qmult, Qinv, inject_Z. simpl. lia.
Qed.

Lemma rescale_fixed_point (v : Z) :
  (inject_Z v / 255 == inject_Z v)%Q <-> v = 0%Z.
Proof.
  unfold Qeq, Qdiv, Qmult, Qinv, inject_Z. simpl. lia.
Qed.

(** The nearest-neighbour kernel meets the resampling contract. *)
Lemma nearest_ok : PIL.resampler_ok PIL.nearest.
Proof.
  split.
  - intros img [tw th]. reflexivity.
  - intros img [tw th]. reflexivity.
  - intros img [tw th] Hv.
    destruct (valid_pixels img Hv) as (_ & Hbands & Hbytes).
    unfold PIL.valid, resample, PIL.nearest, PIL.width, PIL.height. simpl.
    apply andb_true_iff. split.
    + apply Nat.eqb_eq. rewrite flat_map_concat_map.
      rewrite (concat_length_uniform tw).
      * rewrite length_map, length_seq. lia.
      * apply Forall_map, Forall_forall. intros y _. simpl.
        by rewrite length_map, length_seq.
    + apply forallb_forall. intros px Hpx.
      apply in_flat_map in Hpx as (y & _ & Hpx).
      apply in_map_iff in Hpx as (x & <- & _).
      unfold PIL.nearest_pixel.
      set (k := (_ + _)%nat). set (dflt := repeat 0%Z _).
      assert (Hd : PIL.valid_pixel (PIL.mode img) dflt = true).
      { unfold PIL.valid_pixel, dflt. rewrite repeat_length, Nat.eqb_refl. simpl.
        apply forallb_forall. intros v Hin. by apply repeat_spec in Hin as ->. }
      destruct (nth_in_or_default k (PIL.im img) dflt) as [Hin| ->]; [|exact Hd].
      unfold PIL.valid, PIL.width, PIL.height in Hv.
      apply andb_true_iff in Hv as [_ Hv].
      rewrite forallb_forall in Hv. by apply Hv.
Qed.

(** C3: a valid 3-channel image is resized to 128 x 128, every byte of the
    resized image is divided by 255, all entries of the tensor lie between
    0 and 1, and its shape is (1, 128, 128, 3). *)
Theorem preprocess_three_channel (R : Resampler) (image : Image) :
  PIL.resampler_ok R ->
  PIL.valid image = true ->
  PIL.bands (PIL.mode image) = 3%nat ->
  let img := PIL.resize image (128, 128)%nat in
  PIL.size img = (128, 128)%nat /\
  preprocess image =
    mk_ndarray [1; 128; 128; 3]%nat
      (map (fun v => inject_Z v / 255)%Q (concat (PIL.im img))) /\
  length (data (preprocess image)) = (128 * 128 * 3)%nat /\
  Forall (fun x => (0 <= x <= 1)%Q) (data (preprocess image)).
Proof.
  intros HR Hv Hb img.
  pose proof (resize_size image (128, 128)%nat HR) as Hsz.
  pose proof (resize_mode image (128, 128)%nat HR) as Hmode.
  pose proof (resize_valid image (128, 128)%nat HR Hv) as Hv'.
  destruct (valid_pixels _ Hv') as (Hlen & Hbands & Hbytes).
  fold img in Hsz, Hmode, Hlen, Hbands, Hbytes.
  assert (Hshape : PIL.array_shape img = [128; 128; 3]%nat).
  { unfold PIL.array_shape, PIL.width, PIL.height.
    rewrite Hsz, Hmode, Hb. reflexivity. }
  rewrite preprocess_unfold. fold img. rewrite Hshape. unfold rescaled.
  cbn [data].
  split; [exact Hsz|]. split; [reflexivity|]. split.
  - rewrite length_map, (concat_length_uniform _ _ Hbands), Hlen.
    unfold PIL.width, PIL.height. rewrite Hsz, Hmode, Hb. reflexivity.
  - apply Forall_map. eapply Forall_impl; [exact Hbytes|].
    intros v Hvb. by apply rescale_unit_interval.
Qed.

Lemma preprocess_three_channel_witness :
  shape (preprocess (H := PIL.nearest) Sample.leaf_rgb) = [1; 128; 128; 3]%nat /\
  Forall (fun x => (0 <= x <= 1)%Q)
    (data (preprocess (H := PIL.nearest) Sample.leaf_rgb)).
Proof.
  destruct (preprocess_three_channel PIL.nearest Sample.leaf_rgb nearest_ok)
    as (_ & Hp & _ & Hall); [reflexivity|reflexivity|].
  split; [exact (f_equal shape Hp)|exact Hall].
Defined.

(** C4 fails on the script: the division by 255 is applied to every image,
    also to one whose values already lie in [0, 1].  On the 128 x 128 RGB
    image of ones the resize step changes nothing, and the rescale step
    turns every 1 into 1/255. *)
Lemma rescale_changes_scaled_input :
  PIL.size Sample.ones_rgb = (128, 128)%nat /\
  PIL.bands (PIL.mode Sample.ones_rgb) = 3%nat /\
  PIL.valid Sample.ones_rgb = true /\
  forallb (fun v => (0 <=? v)%Z && (v <=? 1)%Z)
    (concat (PIL.im Sample.ones_rgb)) = true /\
  ~ values_unchanged (H := PIL.nearest) Sample.ones_rgb.
Proof.
  split; [reflexivity|]. split; [reflexivity|].
  split; [vm_compute; reflexivity|]. split; [vm_compute; reflexivity|].
  unfold values_unchanged. intros H.
  assert (H0 : data (preprocess (H := PIL.nearest) Sample.ones_rgb) !! 0%nat
               = Some (1 # 255)%Q) by (vm_compute; reflexivity).
  assert (H1 : map inject_Z (concat (PIL.im Sample.ones_rgb)) !! 0%nat
               = Some (1 # 1)%Q) by (vm_compute; reflexivity).
  pose proof (Forall2_lookup_lr _ _ _ _ _ _ H H0 H1) as Heq.
  discriminate Heq.
Qed.

(** C4, as the script has it: on an image that is already 128 x 128 the
    resize step returns the image as it is, and the rescale step divides
    every value by 255, so a value is left as it was only where it is 0. *)
Theorem resize_noop_rescale_divides (R : Resampler) (image : Image) :
  PIL.size image = (128, 128)%nat ->
  PIL.resize image (128, 128)%nat = image /\
  data (preprocess image) =
    map (fun v => inject_Z v / 255)%Q (concat (PIL.im image)) /\
  (forall i v,
     concat (PIL.im image) !! i = Some v ->
     data (preprocess image) !! i = Some (inject_Z v / 255)%Q /\
     ((inject_Z v / 255 == inject_Z v)%Q <-> v = 0%Z)).
Proof.
  intros Hsz.
  assert (Hr : PIL.resize image (128, 128)%nat = image)
    by (rewrite <- Hsz; apply resize_same_size).
  split; [exact Hr|].
  rewrite preprocess_unfold, Hr. unfold rescaled. cbn [data].
  split; [reflexivity|]. intros i v Hi. split.
  - by rewrite list_lookup_fmap, Hi.
  - apply rescale_fixed_point.
Qed.

Lemma resize_noop_rescale_divides_witness :
  PIL.resize (H := PIL.nearest) Sample.ones_rgb (128, 128)%nat = Sample.ones_rgb /\
  data (preprocess (H := PIL.nearest) Sample.ones_rgb) !! 7%nat = Some (1 / 255)%Q.
Proof.
  destruct (resize_noop_rescale_divides PIL.nearest Sample.ones_rgb)
    as (Hr & _ & Hv); [reflexivity|].
  split; [exact Hr|].
  apply (Hv 7%nat 1%Z). vm_compute. reflexivity.
Defined.

(** C10 fails on the script for a single-band image: the array of a
    grayscale image has no channel axis, so the tensor has three axes, not
    the four of (1, 128, 128, 1). *)
Lemma grayscale_tensor_has_no_channel_axis :
  PIL.bands (PIL.mode Sample.leaf_gray) = 1%nat /\
  shape (preprocess (H := PIL.nearest) Sample.leaf_gray) = [1; 128; 128]%nat /\
  shape (preprocess (H := PIL.nearest) Sample.leaf_gray)
    <> [1; 128; 128; PIL.bands (PIL.mode Sample.leaf_gray)]%nat.
Proof.
  split; [reflexivity|].
  assert (Hs : shape (preprocess (H := PIL.nearest) Sample.leaf_gray)
               = [1; 128; 128]%nat) by (vm_compute; reflexivity).
  split; [exact Hs|]. rewrite Hs. discriminate.
Qed.

(** ** Runs *)

Section Runs.

Context {A B : Type}.

Lemma trace_bind (m : M A) (f : A -> M B) :
  trace (m ≫= f) =
  match outcome m with
  | Return a => trace m ++ trace (f a)
  | Raise _ => trace m
  end.
Proof. unfold mbind, M_bind. by destruct (outcome m). Qed.

Lemma outcome_bind (m : M A) (f : A -> M B) :
  outcome (m ≫= f) =
  match outcome m with
  | Return a => outcome (f a)
  | Raise e => Raise e
  end.
Proof. unfold mbind, M_bind. by destruct (outcome m). Qed.

Lemma trace_emit_bind (ev : Event) (f : unit -> M B) :
  trace (emit ev ≫= f) = ev :: trace (f tt).
Proof. reflexivity. Qed.

Lemma outcome_emit_bind (ev : Event) (f : unit -> M B) :
  outcome (emit ev ≫= f) = outcome (f tt).
Proof. reflexivity. Qed.

Lemma trace_lift_bind (r : result A) (f : A -> M B) :
  trace (lift r ≫= f) =
  match r with Return a => trace (f a) | Raise _ => [] end.
Proof. by destruct r. Qed.

Lemma outcome_lift_bind (r : result A) (f : A -> M B) :
  outcome (lift r ≫= f) =
  match r with Return a => outcome (f a) | Raise e => Raise e end.
Proof. by destruct r. Qed.

End Runs.

Lemma no_inference_app (t1 t2 : list Event) :
  no_inference (t1 ++ t2) = no_inference t1 && no_inference t2.
Proof. unfold no_inference. apply forallb_app. Qed.

Lemma no_inference_bind {A B} (m : M A) (f : A -> M B) :
  no_inference (trace m) = true ->
  (forall a, outcome m = Return a -> no_inference (trace (f a)) = true) ->
  no_inference (trace (m ≫= f)) = true.
Proof.
  intros Hm Hf. rewrite trace_bind. destruct (outcome m) as [a|e]; [|exact Hm].
  rewrite no_inference_app, Hm. by apply Hf.
Qed.

(** The tensor handed to [predict] is the preprocessed image, whatever its
    shape. *)
Lemma prediction_logic_trace (R : Resampler) (image : Image) (model : Model)
    (class_names : list string) :
  trace (prediction_logic image model class_names) =
  [st_spinner "🧠 Analyzing the image... Please wait."; time_sleep 1;
   image_resize (128, 128)%nat; model_predict (preprocess image)].
Proof.
  unfold prediction_logic. rewrite !trace_emit_bind, trace_lift_bind.
  destruct (predict model (preprocess image)); reflexivity.
Qed.

Lemma prediction_logic_outcome (R : Resampler) (image : Image) (model : Model)
    (class_names : list string) :
  outcome (prediction_logic image model class_names) =
  match predict model (preprocess image) with
  | Return predictions => interpret predictions class_names
  | Raise e => Raise e
  end.
Proof.
  unfold prediction_logic. rewrite !outcome_emit_bind, outcome_lift_bind.
  reflexivity.
Qed.

(** C10, as the script has it: no channel conversion is made.  The resized
    image keeps the mode of the source; with C bands the tensor has shape
    (1, 128, 128, C) when C is at least 2 and (1, 128, 128) when C is 1; it
    has the layout (1, 128, 128, 3) exactly when C is 3; and it is passed to
    [predict] as it is. *)
Theorem no_channel_conversion (R : Resampler) (image : Image) :
  PIL.resampler_ok R ->
  let C := PIL.bands (PIL.mode image) in
  PIL.mode (PIL.resize image (128, 128)%nat) = PIL.mode image /\
  shape (preprocess image) =
    (1 :: 128 :: 128 :: (if decide (C = 1) then [] else [C]))%nat /\
  (shape (preprocess image) = [1; 128; 128; 3]%nat <-> C = 3%nat) /\
  (forall model class_names,
     model_predict (preprocess image)
       ∈ trace (prediction_logic image model class_names)).
Proof.
  intros HR C.
  pose proof (resize_size image (128, 128)%nat HR) as Hsz.
  pose proof (resize_mode image (128, 128)%nat HR) as Hmode.
  assert (Hshape : shape (preprocess image) =
            (1 :: 128 :: 128 :: (if decide (C = 1) then [] else [C]))%nat).
  { rewrite preprocess_unfold. cbn [shape].
    unfold PIL.array_shape, PIL.width, PIL.height. rewrite Hsz, Hmode.
    reflexivity. }
  split; [exact Hmode|]. split; [exact Hshape|]. split.
  - rewrite Hshape. case_decide as HC.
    + split; [discriminate|]. intros H3. rewrite H3 in HC. discriminate.
    + split; [intros H; by injection H|]. by intros ->.
  - intros model class_names. rewrite prediction_logic_trace.
    apply list_elem_of_In. simpl. tauto.
Qed.

Lemma no_channel_conversion_witness :
  shape (preprocess (H := PIL.nearest) Sample.leaf_rgba) = [1; 128; 128; 4]%nat /\
  shape (preprocess (H := PIL.nearest) Sample.leaf_gray) = [1; 128; 128]%nat /\
  shape (preprocess (H := PIL.nearest) Sample.leaf_rgb) = [1; 128; 128; 3]%nat.
Proof.
  destruct (no_channel_conversion PIL.nearest Sample.leaf_rgba nearest_ok)
    as (_ & Ha & _).
  destruct (no_channel_conversion PIL.nearest Sample.leaf_gray nearest_ok)
    as (_ & Hg & _).
  destruct (no_channel_conversion PIL.nearest Sample.leaf_rgb nearest_ok)
    as (_ & _ & Hc & _).
  split; [exact Ha|]. split; [exact Hg|]. apply Hc. reflexivity.
Defined.

(** A grayscale or RGBA picture is rejected by a classifier that checks its
    input layout: the run ends in the classifier's exception. *)
Example grayscale_reaches_predict :
  outcome (prediction_logic (H := PIL.nearest) Sample.leaf_gray
             Sample.two_class Sample.labels) = Raise Sample.shape_error.
Proof. vm_compute. reflexivity. Qed.

(** ** The loaders *)

Lemma M_eq {A} (m : M A) t o : trace m = t -> outcome m = o -> m = Run t o.
Proof. destruct m. simpl. by intros -> ->. Qed.

(** The model loader handles every exception of [load_model]. *)
Lemma load_app_model_total (w : World) :
  outcome (load_app_model w) =
  Return match trained_model_keras w with
         | saved_model m => Some m
         | _ => None
         end.
Proof. unfold load_app_model. by destruct (trained_model_keras w). Qed.

Lemma load_class_names_missing (w : World) :
  class_names_json w = None ->
  load_class_names w =
  Run [st_error "Error: 'class_names.json' not found."] (Return []).
Proof. unfold load_class_names. by intros ->. Qed.

Lemma load_disease_info_missing (w : World) :
  disease_info_json w = None ->
  load_disease_info w =
  Run [st_error "Error: 'disease_info.json' not found."] (Return ∅).
Proof. unfold load_disease_info. by intros ->. Qed.

(** A file that is there but does not parse: the exception of [json.load]
    is not a [FileNotFoundError] and leaves the loader. *)
Lemma load_class_names_malformed (w : World) :
  class_names_json w = Some malformed ->
  load_class_names w =
  Run [] (Raise (mk_exn JSONDecodeError "Expecting value: line 1 column 1 (char 0)")).
Proof. unfold load_class_names. by intros ->. Qed.

Lemma load_disease_info_malformed (w : World) :
  disease_info_json w = Some malformed ->
  load_disease_info w =
  Run [] (Raise (mk_exn JSONDecodeError "Expecting value: line 1 column 1 (char 0)")).
Proof. unfold load_disease_info. by intros ->. Qed.

(** C5 at its failing input: with JSON files that exist but do not parse,
    the class-name loader and the disease-info loader raise
    [JSONDecodeError] instead of returning the empty list and the empty
    dictionary, no message is shown, and the exception ends the run. *)
Theorem json_parse_error_leaves_loader :
  load_class_names Sample.garbled_json =
    Run [] (Raise (mk_exn JSONDecodeError "Expecting value: line 1 column 1 (char 0)")) /\
  load_disease_info Sample.garbled_info =
    Run [] (Raise (mk_exn JSONDecodeError "Expecting value: line 1 column 1 (char 0)")) /\
  main Sample.garbled_json =
    Run [] (Raise (mk_exn JSONDecodeError "Expecting value: line 1 column 1 (char 0)")) /\
  main Sample.garbled_info =
    Run [] (Raise (mk_exn JSONDecodeError "Expecting value: line 1 column 1 (char 0)")).
Proof. repeat split; vm_compute; reflexivity. Qed.

(** ** The gate of the analysis column *)

Lemma load_app_model_no_inference (w : World) :
  no_inference (trace (load_app_model w)) = true.
Proof. unfold load_app_model. by destruct (trained_model_keras w). Qed.

Lemma load_class_names_no_inference (w : World) :
  no_inference (trace (load_class_names w)) = true.
Proof.
  unfold load_class_names. by destruct (class_names_json w) as [[| |?]|].
Qed.

Lemma load_disease_info_no_inference (w : World) :
  no_inference (trace (load_disease_info w)) = true.
Proof.
  unfold load_disease_info. by destruct (disease_info_json w) as [[| |?]|].
Qed.

Lemma provide_image_no_inference (w : World) (o : UploadOption) :
  no_inference (trace (provide_image w o)) = true.
Proof.
  unfold provide_image.
  destruct o; [destruct (uploaded_file w) as [[| |?]|]
              | destruct (camera_input w) as [[| |?]|]]; reflexivity.
Qed.

Lemma analysis_result_blocked (R : Resampler) image model class_names disease_info :
  truth image && truth model && truth class_names && truth disease_info = false ->
  no_inference (trace (analysis_result image model class_names disease_info))
  = true.
Proof.
  intros Hgate. unfold analysis_result. rewrite !trace_emit_bind, Hgate.
  by destruct (negb _).
Qed.

(** C6: when the model file is missing the model loader returns [None];
    and whenever the model is [None], the class-name list is empty or the
    disease dictionary is empty, the run of the script performs no resize
    and no [predict] call, whatever image the user provides. *)
Theorem unavailable_resource_blocks_inference (w : World) :
  (trained_model_keras w = model_missing ->
   outcome (load_app_model w) = Return None) /\
  (outcome (load_app_model w) = Return None \/
   outcome (load_class_names w) = Return [] \/
   outcome (load_disease_info w) = Return ∅ ->
   no_inference (trace (main w)) = true).
Proof.
  split.
  - intros Hm. by rewrite load_app_model_total, Hm.
  - intros Hsentinel. unfold main.
    apply no_inference_bind; [apply load_app_model_no_inference|].
    intros model Hmodel.
    apply no_inference_bind; [apply load_class_names_no_inference|].
    intros class_names Hnames.
    apply no_inference_bind; [apply load_disease_info_no_inference|].
    intros disease_info Hinfo.
    apply no_inference_bind; [reflexivity|]. intros o _.
    rewrite trace_emit_bind.
    change (no_inference (?e :: ?t)) with (no_inference t).
    apply no_inference_bind; [apply provide_image_no_inference|].
    intros image _. apply analysis_result_blocked.
    rewrite Hmodel, Hnames, Hinfo in Hsentinel.
    destruct Hsentinel as [H|[H|H]]; injection H as ->.
    + by rewrite andb_false_r.
    + by rewrite andb_false_r.
    + apply andb_false_r.
Qed.

Lemma unavailable_resource_blocks_inference_witness :
  outcome (load_app_model Sample.no_model) = Return None /\
  no_inference (trace (main Sample.no_model)) = true.
Proof.
  destruct (unavailable_resource_blocks_inference Sample.no_model) as [Hl Hg].
  split; [apply Hl; reflexivity|].
  apply Hg. left. apply Hl. reflexivity.
Defined.

(** ** An index outside the label list *)

(** C7 fails on the script: with a classifier of three outputs and a list
    of two labels the predicted index is 2, the lookup raises
    [IndexError], the exception ends the run, and the run shows no error
    message of its own. *)
Lemma out_of_range_index_is_unhandled :
  Np.argmax (mk_ndarray [1; 3]%nat [1 # 10; 2 # 10; 7 # 10]%Q) = Return 2%nat /\
  length Sample.labels = 2%nat /\
  outcome (main Sample.wide_model) =
    Raise (mk_exn IndexError "list index out of range") /\
  existsb is_error (trace (main Sample.wide_model)) = false.
Proof. repeat split; vm_compute; reflexivity. Qed.

Lemma interpret_out_of_range (predictions : ndarray Q)
    (class_names : list string) (idx : nat) :
  Np.argmax predictions = Return idx ->
  (length class_names <= idx)%nat ->
  interpret predictions class_names =
  Raise (mk_exn IndexError "list index out of range").
Proof.
  intros Ha Hlen. unfold interpret. rewrite Ha.
  unfold Np.argmax in Ha. unfold Np.max.
  destruct (data predictions) as [|x ip]; [discriminate|].
  unfold getitem. by rewrite (lookup_ge_None_2 class_names idx Hlen).
Qed.

(** C7, as the script has it: when the predicted index is outside the
    label list, the lookup raises [IndexError] and nothing handles it; the
    analysis column stops after the [predict] call, so no class, no
    confidence and no message are shown. *)
Theorem out_of_range_index_raises (R : Resampler) (image : Image)
    (model : Model) (class_names : list string)
    (disease_info : gmap string Info) (predictions : ndarray Q) (idx : nat) :
  truth class_names = true ->
  truth disease_info = true ->
  predict model (preprocess image) = Return predictions ->
  Np.argmax predictions = Return idx ->
  (length class_names <= idx)%nat ->
  analysis_result (Some image) (Some model) class_names disease_info =
  Run [st_with "col2"; st_header "2. Analysis Result";
       st_spinner "🧠 Analyzing the image... Please wait."; time_sleep 1;
       image_resize (128, 128)%nat; model_predict (preprocess image)]
      (Raise (mk_exn IndexError "list index out of range")).
Proof.
  intros Hnames Hinfo Hpred Ha Hlen.
  pose proof (prediction_logic_outcome R image model class_names) as Ho.
  rewrite Hpred, (interpret_out_of_range _ _ _ Ha Hlen) in Ho.
  unfold analysis_result. apply M_eq.
  - rewrite !trace_emit_bind, Hnames, Hinfo. cbn [truth object_truthy andb].
    rewrite trace_bind, Ho, prediction_logic_trace. reflexivity.
  - rewrite !outcome_emit_bind, Hnames, Hinfo. cbn [truth object_truthy andb].
    by rewrite outcome_bind, Ho.
Qed.

Lemma out_of_range_index_raises_witness :
  outcome (analysis_result (H := PIL.nearest) (Some Sample.leaf_rgb)
             (Some Sample.three_class) Sample.labels Sample.info_A)
  = Raise (mk_exn IndexError "list index out of range").
Proof.
  rewrite (out_of_range_index_raises PIL.nearest Sample.leaf_rgb
             Sample.three_class Sample.labels Sample.info_A
             (mk_ndarray [1; 3]%nat [1 # 10; 2 # 10; 7 # 10]%Q) 2).
  - reflexivity.
  - reflexivity.
  - reflexivity.
  - vm_compute. reflexivity.
  - reflexivity.
  - simpl. lia.
Defined.

(** ** Decode failures *)

(** In upload mode the failure of [Image.open] is handled: an error is
    shown and the image is [None]. *)
Lemma upload_decode_failure_recovered (w : World) :
  uploaded_file w = Some undecodable ->
  provide_image w UploadImage =
  Run [st_with "col1"; st_header "1. Provide an Image";
       st_file_uploader "Click to upload a plant leaf image:"
         ["jpg"; "png"; "jpeg"; "bmp"; "webp"];
       st_error "Error opening image file: cannot identify image file. Please try a different file."]
      (Return None).
Proof. unfold provide_image. by intros ->. Qed.

(** In camera mode nothing handles it. *)
Lemma camera_decode_failure_raises (w : World) :
  camera_input w = Some undecodable ->
  provide_image w CameraCapture =
  Run [st_with "col1"; st_header "1. Provide an Image";
       st_camera_input "Take a picture of the leaf"]
      (Raise (mk_exn UnidentifiedImageError "cannot identify image file")).
Proof. unfold provide_image. by intros ->. Qed.

(** C8 at its failing input: a captured frame that [Image.open] rejects.
    The exception leaves the script, which shows no error message of its
    own; the same bytes in upload mode give an error message, an absent
    image and a run that completes without inference. *)
Theorem camera_decode_failure_leaves_script :
  outcome (main Sample.bad_capture) =
    Raise (mk_exn UnidentifiedImageError "cannot identify image file") /\
  existsb is_error (trace (main Sample.bad_capture)) = false /\
  outcome (main Sample.bad_upload) = Return tt /\
  existsb is_error (trace (main Sample.bad_upload)) = true /\
  no_inference (trace (main Sample.bad_upload)) = true.
Proof. repeat split; vm_compute; reflexivity. Qed.

(** ** A class without an entry in the dictionary *)

(** C9: for a predicted class that is not a key of the disease dictionary
    the information block shows the separator, its heading and the "not
    available" error: exactly one such message, no information section and
    no healthy block. *)
Theorem missing_entry_shows_not_available (predicted_class : string)
    (disease_info : gmap string Info) :
  disease_info !! predicted_class = None ->
  let shown := trace (disease_information predicted_class disease_info) in
  shown = [st_markdown "---"; st_subheader "📝 Disease Information";
           st_error "Information for this disease is not available in the database."] /\
  length (filter (fun ev => is_not_available ev = true) shown) = 1%nat /\
  existsb is_information shown = false /\
  outcome (disease_information predicted_class disease_info) = Return tt.
Proof.
  intros Hnone shown. unfold shown, disease_information.
  rewrite !trace_emit_bind, !outcome_emit_bind, Hnone.
  repeat split; reflexivity.
Qed.

Lemma missing_entry_shows_not_available_witness :
  trace (disease_information "B" Sample.info_A) =
  [st_markdown "---"; st_subheader "📝 Disease Information";
   st_error "Information for this disease is not available in the database."].
Proof.
  apply (missing_entry_shows_not_available "B" Sample.info_A).
  vm_compute. reflexivity.
Defined.

(** A class with an entry that has only a description: the other sections
    show their placeholders. *)
Example partial_entry_placeholders :
  trace (disease_information "A" Sample.info_A) =
  [st_markdown "---"; st_subheader "📝 Disease Information";
   st_tabs ["Description"; "Symptoms"; "Prevention"; "Remedy"];
   st_with "tab1"; st_subheader "A"; st_write "d";
   st_with "tab2"; st_write "No symptoms information available.";
   st_with "tab3"; st_write "No prevention information available.";
   st_with "tab4"; st_write "No remedy information available."].
Proof. vm_compute. reflexivity. Qed.

(** * Further properties of the script *)

(** ** The three branches of the analysis column *)

(** X1: when the model is [None], the label list is empty or the dictionary
    is empty, the analysis column shows its header and the "not fully
    loaded" error and nothing else, with or without an image, and the
    column completes. *)
Theorem unavailable_resource_shows_not_loaded (R : Resampler)
    (image : option Image) (model : option Model)
    (class_names : list string) (disease_info : gmap string Info) :
  truth model && truth class_names && truth disease_info = false ->
  analysis_result image model class_names disease_info =
  Run [st_with "col2"; st_header "2. Analysis Result"; st_error not_loaded]
      (Return tt).
Proof.
  intros Hgate. unfold analysis_result.
  destruct (truth disease_info) eqn:Hd, image, model, class_names;
    simpl in Hgate |- *; try discriminate Hgate; rewrite ?Hd; reflexivity.
Qed.

Lemma unavailable_resource_shows_not_loaded_witness :
  trace (analysis_result (H := PIL.nearest) (Some Sample.leaf_rgb)
           (Some Sample.two_class) [] Sample.info_A)
  = [st_with "col2"; st_header "2. Analysis Result"; st_error not_loaded].
Proof.
  rewrite (unavailable_resource_shows_not_loaded PIL.nearest
             (Some Sample.leaf_rgb) (Some Sample.two_class) [] Sample.info_A);
    reflexivity.
Defined.

(** X2: when the three resources are available and there is no image, the
    analysis column shows its header and the prompt to provide an image; no
    error is shown. *)
Theorem no_image_shows_prompt (R : Resampler) (model : Model)
    (class_names : list string) (disease_info : gmap string Info) :
  truth class_names = true ->
  truth disease_info = true ->
  analysis_result None (Some model) class_names disease_info =
  Run [st_with "col2"; st_header "2. Analysis Result"; st_info please_upload]
      (Return tt).
Proof.
  intros Hn Hd. unfold analysis_result.
  cbn [truth object_truthy andb]. rewrite Hn, Hd. reflexivity.
Qed.

Lemma no_image_shows_prompt_witness :
  trace (analysis_result (H := PIL.nearest) None (Some Sample.two_class)
           Sample.labels Sample.info_A)
  = [st_with "col2"; st_header "2. Analysis Result"; st_info please_upload].
Proof.
  rewrite (no_image_shows_prompt PIL.nearest Sample.two_class Sample.labels
             Sample.info_A); reflexivity.
Defined.

(** X3: an exception of [model.predict] is not handled: the analysis
    column ends with that exception right after the call, and shows no
    prediction and no message. *)
Theorem predict_exception_unhandled (R : Resampler) (image : Image)
    (model : Model) (class_names : list string)
    (disease_info : gmap string Info) (e : exn) :
  truth class_names = true ->
  truth disease_info = true ->
  predict model (preprocess image) = Raise e ->
  analysis_result (Some image) (Some model) class_names disease_info =
  Run [st_with "col2"; st_header "2. Analysis Result";
       st_spinner "🧠 Analyzing the image... Please wait."; time_sleep 1;
       image_resize (128, 128)%nat; model_predict (preprocess image)]
      (Raise e).
Proof.
  intros Hnames Hinfo Hpred.
  pose proof (prediction_logic_outcome R image model class_names) as Ho.
  rewrite Hpred in Ho.
  unfold analysis_result. apply M_eq.
  - rewrite !trace_emit_bind, Hnames, Hinfo. cbn [truth object_truthy andb].
    rewrite trace_bind, Ho, prediction_logic_trace. reflexivity.
  - rewrite !outcome_emit_bind, Hnames, Hinfo. cbn [truth object_truthy andb].
    by rewrite outcome_bind, Ho.
Qed.

Lemma predict_exception_unhandled_witness :
  outcome (analysis_result (H := PIL.nearest) (Some Sample.leaf_gray)
             (Some Sample.two_class) Sample.labels Sample.info_A)
  = Raise Sample.shape_error.
Proof.
  rewrite (predict_exception_unhandled PIL.nearest Sample.leaf_gray
             Sample.two_class Sample.labels Sample.info_A Sample.shape_error).
  - reflexivity.
  - reflexivity.
  - reflexivity.
  - vm_compute. reflexivity.
Defined.

(** X4: when the gate is open, [predict] returns and the predicted index
    is inside the label list, the analysis column completes; it shows, in
    this order, the spinner block with one resize and one [predict] call,
    the metric with the predicted label, the metric that formats the
    confidence, the confidence banner and the information block of the
    predicted class. *)
Theorem successful_analysis (R : Resampler) (image : Image) (model : Model)
    (class_names : list string) (disease_info : gmap string Info)
    (predictions : ndarray Q) (p : Prediction) :
  truth class_names = true ->
  truth disease_info = true ->
  predict model (preprocess image) = Return predictions ->
  interpret predictions class_names = Return p ->
  let r := analysis_result (Some image) (Some model) class_names disease_info in
  outcome r = Return tt /\
  trace r =
    [st_with "col2"; st_header "2. Analysis Result";
     st_spinner "🧠 Analyzing the image... Please wait."; time_sleep 1;
     image_resize (128, 128)%nat; model_predict (preprocess image);
     st_subheader "✅ Prediction"; st_columns "2";
     st_metric "c1" "Detected Disease:" (predicted_class p);
     st_metric_percent "c2" "Confidence:" (confidence p)]
    ++ trace (confidence_banner (confidence p))
    ++ trace (disease_information (predicted_class p) disease_info).
Proof.
  intros Hnames Hinfo Hpred Hint r.
  pose proof (prediction_logic_outcome R image model class_names) as Ho.
  rewrite Hpred, Hint in Ho.
  assert (Hb : outcome (confidence_banner (confidence p)) = Return tt)
    by (unfold confidence_banner; by destruct (confidence_tier _)).
  assert (Hi : outcome (disease_information (predicted_class p) disease_info)
               = Return tt).
  { unfold disease_information. rewrite !outcome_emit_bind.
    destruct (disease_info !! predicted_class p); [|reflexivity].
    by destruct (Str.contains _ _). }
  unfold r, analysis_result. split.
  - rewrite !outcome_emit_bind, Hnames, Hinfo. cbn [truth object_truthy andb].
    rewrite outcome_bind, Ho, outcome_bind.
    unfold result_display. rewrite !outcome_emit_bind, Hb. exact Hi.
  - rewrite !trace_emit_bind, Hnames, Hinfo. cbn [truth object_truthy andb].
    rewrite trace_bind, Ho, prediction_logic_trace, trace_bind.
    unfold result_display at 1. rewrite !outcome_emit_bind, Hb.
    unfold result_display. rewrite !trace_emit_bind. reflexivity.
Qed.

Lemma successful_analysis_witness :
  outcome (analysis_result (H := PIL.nearest) (Some Sample.leaf_rgb)
             (Some Sample.two_class) Sample.labels Sample.info_A)
  = Return tt.
Proof.
  apply (successful_analysis PIL.nearest Sample.leaf_rgb Sample.two_class
           Sample.labels Sample.info_A
           (mk_ndarray [1; 2]%nat [2 # 10; 8 # 10]%Q)
           (mk_prediction 1 (8 # 10) "B")).
  - reflexivity.
  - reflexivity.
  - vm_compute. reflexivity.
  - reflexivity.
Defined.

(** ** Ingestion and the whole run *)

Lemma page_setup_run (w : World) :
  outcome (page_setup w) = Return (upload_option w).
Proof. reflexivity. Qed.

Lemma provide_image_absent (w : World) :
  image_absent w = true ->
  forall image,
    outcome (provide_image w (upload_option w)) = Return image -> image = None.
Proof.
  unfold image_absent, provide_image. intros Ha image.
  destruct (upload_option w).
  - destruct (uploaded_file w) as [[| |img]|]; try discriminate Ha;
      simpl; congruence.
  - destruct (camera_input w) as [f|]; try discriminate Ha; simpl; congruence.
Qed.

(** X5: when the user gives no file, gives a file that cannot be decoded in
    upload mode, or takes no picture in camera mode, the run performs no
    resize and no [predict] call, whatever the state of the three
    resources. *)
Theorem no_image_no_inference (w : World) :
  image_absent w = true ->
  no_inference (trace (main w)) = true.
Proof.
  intros Habsent. unfold main.
  apply no_inference_bind; [apply load_app_model_no_inference|].
  intros model _.
  apply no_inference_bind; [apply load_class_names_no_inference|].
  intros class_names _.
  apply no_inference_bind; [apply load_disease_info_no_inference|].
  intros disease_info _.
  apply no_inference_bind; [reflexivity|]. intros o Ho.
  rewrite page_setup_run in Ho. injection Ho as <-.
  rewrite trace_emit_bind.
  change (no_inference (?e :: ?t)) with (no_inference t).
  apply no_inference_bind; [apply provide_image_no_inference|].
  intros image Himage.
  rewrite (provide_image_absent w Habsent image Himage).
  by apply analysis_result_blocked.
Qed.

Lemma no_image_no_inference_witness :
  no_inference (trace (main Sample.bad_upload)) = true.
Proof. apply (no_image_no_inference Sample.bad_upload). reflexivity. Defined.

(** ** One forward pass per run *)

Lemma calls_app (which : Event -> bool) (t1 t2 : list Event) :
  calls which (t1 ++ t2) = (calls which t1 + calls which t2)%nat.
Proof. unfold calls. by rewrite List.filter_app, length_app. Qed.

Lemma no_inference_calls (tr : list Event) :
  no_inference tr = true ->
  calls is_predict tr = 0%nat /\ calls is_resize tr = 0%nat.
Proof.
  unfold no_inference, calls.
  induction tr as [|ev tr IH]; simpl; [done|].
  rewrite andb_true_iff. intros [Hev Htr]. specialize (IH Htr).
  destruct ev; simpl in *; try discriminate Hev; exact IH.
Qed.



Lemma presentation_no_inference (p : Prediction)
    (disease_info : gmap string Info) :
  no_inference
    (trace (result_display p ≫=
            fun _ => disease_information (predicted_class p) disease_info))
  = true.
Proof.
  unfold result_display, confidence_banner, disease_information.
  destruct (confidence_tier (confidence p));
    (destruct (disease_info !! predicted_class p); [|reflexivity]);
    destruct (Str.contains _ _); reflexivity.
Qed.



(** A run with everything in place makes exactly one call. *)
Example ready_run_predicts_once :
  calls is_predict (trace (main Sample.ready)) = 1%nat.
Proof. vm_compute. reflexivity. Qed.

(** ** Interpretation on arbitrary outputs *)

(** X7: on any non-empty classifier output, and a label list at least as
    long as the output, the interpretation returns: the predicted index is
    the first index of the largest entry (so it is inside the output), the
    confidence is that entry and the class is the label at that index.
    Labels beyond the output width are never reported. *)
Theorem interpret_enough_labels (sh : list nat) (p : list Q)
    (class_names : list string) :
  p <> [] ->
  (length p <= length class_names)%nat ->
  exists r,
    interpret (mk_ndarray sh p) class_names = Return r /\
    first_max p (predicted_idx r) (confidence r) /\
    (predicted_idx r < length p)%nat /\
    class_names !! predicted_idx r = Some (predicted_class r).
Proof.
  intros Hp Hlen.
  destruct (argmax_max_first_max sh p Hp) as (idx & mp & Ha & Hm & Hfirst).
  pose proof (first_max_lt_length _ _ _ Hfirst) as Hlt.
  destruct (lookup_lt_is_Some_2 class_names idx) as [cls Hcls]; [lia|].
  exists (mk_prediction idx mp cls).
  unfold interpret, getitem. rewrite Ha, Hm, Hcls.
  split; [reflexivity|]. split; [exact Hfirst|]. split; [exact Hlt|exact Hcls].
Qed.

Lemma interpret_enough_labels_witness :
  exists r,
    interpret (mk_ndarray [1; 2]%nat [3 # 1; (-2) # 1]%Q) ["A"; "B"; "C"]
      = Return r /\
    first_max [3 # 1; (-2) # 1]%Q (predicted_idx r) (confidence r) /\
    (predicted_idx r < 2)%nat /\
    ["A"; "B"; "C"] !! predicted_idx r = Some (predicted_class r).
Proof.
  apply (interpret_enough_labels [1; 2]%nat [3 # 1; (-2) # 1]%Q ["A"; "B"; "C"]).
  - discriminate.
  - simpl. lia.
Defined.

(** An empty output makes [np.argmax] raise. *)
Example interpret_empty_output :
  interpret (mk_ndarray [1; 0]%nat []) Sample.labels =
  Raise (mk_exn ValueError "attempt to get argmax of an empty sequence").
Proof. reflexivity. Qed.

(** ** Bounds on the confidence *)

Lemma Qsum_le_length (p : list Q) (m : Q) :
  (forall j x, p !! j = Some x -> (x <= m)%Q) ->
  (Qsum p <= inject_Z (Z.of_nat (length p)) * m)%Q.
Proof.
  induction p as [|y p IH]; intros Hle.
  - change (0 <= 0 * m)%Q. lra.
  - assert (Hy : (y <= m)%Q) by exact (Hle 0%nat y eq_refl).
    assert (IH' : (Qsum p <= inject_Z (Z.of_nat (length p)) * m)%Q).
    { apply IH. intros j x Hj. exact (Hle (S j) x Hj). }
    change (Qsum (y :: p)) with (y + Qsum p)%Q.
    change (length (y :: p)) with (S (length p)).
    rewrite Nat2Z.inj_succ. unfold Z.succ. rewrite inject_Z_plus.
    change (inject_Z 1) with 1%Q. lra.
Qed.

Lemma Qsum_nonneg (p : list Q) :
  Forall (fun x => (0 <= x)%Q) p -> (0 <= Qsum p)%Q.
Proof.
  induction 1 as [|y p Hy _ IH]; simpl; lra.
Qed.

Lemma Qsum_ge_entry (p : list Q) :
  Forall (fun x => (0 <= x)%Q) p ->
  forall j x, p !! j = Some x -> (x <= Qsum p)%Q.
Proof.
  induction 1 as [|y p Hy Hp IH]; intros j x Hj; [discriminate|].
  pose proof (Qsum_nonneg p Hp) as Hs.
  change (Qsum (y :: p)) with (y + Qsum p)%Q.
  destruct j as [|j]; simpl in Hj.
  - injection Hj as <-. lra.
  - specialize (IH j x Hj). lra.
Qed.

(** X8: on a probability vector of N entries the reported confidence is at
    least 1/N and at most 1. *)
Theorem confidence_bounds (sh : list nat) (p : list Q)
    (class_names : list string) (r : Prediction) :
  prob_vector p ->
  interpret (mk_ndarray sh p) class_names = Return r ->
  (1 <= inject_Z (Z.of_nat (length p)) * confidence r)%Q /\
  (confidence r <= 1)%Q.
Proof.
  intros [Hnn Hsum] Hint.
  destruct (argmax_max_first_max sh p (prob_vector_nonempty p (conj Hnn Hsum)))
    as (idx & mp & Ha & Hm & Hi & Hle & _).
  unfold interpret in Hint. rewrite Ha, Hm in Hint.
  destruct (getitem class_names idx); [|discriminate].
  injection Hint as <-. cbn [confidence].
  pose proof (Qsum_le_length p mp Hle) as H1.
  pose proof (Qsum_ge_entry p Hnn idx mp Hi) as H2.
  rewrite Hsum in H1, H2. split; assumption.
Qed.

Lemma confidence_bounds_witness :
  (1 <= inject_Z (Z.of_nat 2) * (8 # 10))%Q /\ (8 # 10 <= 1)%Q.
Proof.
  apply (confidence_bounds [1; 2]%nat [2 # 10; 8 # 10]%Q Sample.labels
           (mk_prediction 1 (8 # 10) "B")).
  - split; [repeat constructor; discriminate | reflexivity].
  - reflexivity.
Defined.

(** ** The tiers are ordered *)

(** X9: a larger confidence never gives a lower tier (low, moderate and
    high in this order). *)
Theorem confidence_tier_monotone (c1 c2 : Q) :
  (c1 <= c2)%Q ->
  (tier_rank (confidence_tier c1) <= tier_rank (confidence_tier c2))%nat.
Proof.
  intros Hle. unfold confidence_tier.
  destruct (Np.gt c1 float32_085) eqn:H1.
  - apply gt_true in H1.
    assert (H2 : Np.gt c2 float32_085 = true) by (apply gt_true; lra).
    by rewrite H2.
  - destruct (Np.gt c1 float32_06) eqn:H3.
    + apply gt_true in H3.
      assert (H4 : Np.gt c2 float32_06 = true) by (apply gt_true; lra).
      destruct (Np.gt c2 float32_085); [simpl; lia|]. by rewrite H4.
    + simpl. lia.
Qed.

Lemma confidence_tier_monotone_witness :
  (tier_rank (confidence_tier (1 # 2)) <= tier_rank (confidence_tier (9 # 10)))%nat.
Proof. apply (confidence_tier_monotone (1 # 2) (9 # 10)). discriminate. Defined.

(** ** The healthy test *)

Lemma prefix_iff (s1 s2 : string) :
  String.prefix s1 s2 = true <-> exists post, s2 = s1 +:+ post.
Proof.
  revert s2. induction s1 as [|a s1 IH]; intros s2.
  - split; [intros _; by exists s2|]. intros _. by destruct s2.
  - destruct s2 as [|b s2]; simpl.
    + split; [discriminate|]. intros [post H]. discriminate H.
    + destruct (ascii_dec a b) as [->|Hne].
      * rewrite IH. split; intros [post H]; exists post.
        -- by rewrite H.
        -- by injection H.
      * split; [discriminate|]. intros [post H]. injection H as H1 H2.
        by destruct Hne.
Qed.

Lemma contains_cons (needle : string) (b : ascii) (s : string) :
  Str.contains needle (String b s) =
  String.prefix needle (String b s) || Str.contains needle s.
Proof.
  unfold Str.contains.
  change (String.index 0 needle (String b s)) with
    (if String.prefix needle (String b s) then Some 0%nat
     else match String.index 0 needle s with
          | Some n => Some (S n)
          | None => None
          end).
  destruct (String.prefix needle (String b s)); [reflexivity|].
  by destruct (String.index 0 needle s).
Qed.

(** [needle in s] holds exactly when [s] has [needle] as a substring. *)
Lemma contains_iff (needle s : string) :
  needle <> "" ->
  Str.contains needle s = true <->
  exists pre post, s = pre +:+ needle +:+ post.
Proof.
  intros Hne. induction s as [|b s IH].
  - split.
    + unfold Str.contains. simpl. by destruct needle.
    + intros (pre & post & H). destruct pre; [|discriminate H].
      destruct needle; [done|discriminate H].
  - rewrite contains_cons, orb_true_iff, prefix_iff, IH. split.
    + intros [[post H]|(pre & post & H)].
      * exists "", post. exact H.
      * exists (String b pre), post. simpl. by rewrite H.
    + intros (pre & post & H). destruct pre as [|c pre].
      * left. exists post. exact H.
      * right. exists pre, post. simpl in H. by injection H.
Qed.

Lemma lower_app (s1 s2 : string) :
  Str.lower (s1 +:+ s2) = Str.lower s1 +:+ Str.lower s2.
Proof. induction s1 as [|c s1 IH]; simpl; [done|]. by rewrite IH. Qed.

(** X10: for a class that has an entry, the healthy block is shown exactly
    when the lower-cased label has "healthy" as a substring; any other
    label gets the four tabs. *)
Theorem healthy_block_iff_substring (predicted_class : string)
    (disease_info : gmap string Info) (info : Info) :
  disease_info !! predicted_class = Some info ->
  ((exists pre post, Str.lower predicted_class = pre +:+ "healthy" +:+ post) ->
   trace (disease_information predicted_class disease_info) =
   [st_markdown "---"; st_subheader "📝 Disease Information"]
     ++ trace (healthy_branch info)) /\
  (~ (exists pre post, Str.lower predicted_class = pre +:+ "healthy" +:+ post) ->
   trace (disease_information predicted_class disease_info) =
   [st_markdown "---"; st_subheader "📝 Disease Information"]
     ++ trace (disease_branch predicted_class info)).
Proof.
  intros Hinfo. unfold disease_information.
  rewrite !trace_emit_bind, Hinfo. split; intros H.
  - apply contains_iff in H; [|discriminate]. by rewrite H.
  - destruct (Str.contains "healthy" (Str.lower predicted_class)) eqn:E;
      [|reflexivity].
    apply contains_iff in E; [|discriminate]. by destruct H.
Qed.

Lemma healthy_block_iff_substring_witness :
  trace (disease_information "A" Sample.info_A) =
  [st_markdown "---"; st_subheader "📝 Disease Information"]
    ++ trace (disease_branch "A" {[ "description" := "d" ]}).
Proof.
  apply (healthy_block_iff_substring "A" Sample.info_A {[ "description" := "d" ]}).
  - vm_compute. reflexivity.
  - intros H. apply (contains_iff "healthy" (Str.lower "A")) in H;
      discriminate.
Defined.

(** X11: the healthy test ignores the letter case of the label: a label
    that contains the word in any mix of upper and lower case letters gets
    the healthy block. *)
Theorem healthy_test_ignores_case (pre mid post : string)
    (disease_info : gmap string Info) (info : Info) :
  Str.lower mid = "healthy" ->
  disease_info !! (pre +:+ mid +:+ post) = Some info ->
  trace (disease_information (pre +:+ mid +:+ post) disease_info) =
  [st_markdown "---"; st_subheader "📝 Disease Information"]
    ++ trace (healthy_branch info).
Proof.
  intros Hmid Hinfo. unfold disease_information.
  rewrite !trace_emit_bind, Hinfo.
  assert (H : Str.contains "healthy" (Str.lower (pre +:+ mid +:+ post)) = true).
  { apply contains_iff; [discriminate|].
    exists (Str.lower pre), (Str.lower post). by rewrite !lower_app, Hmid. }
  by rewrite H.
Qed.

Lemma healthy_test_ignores_case_witness :
  existsb (fun ev => match ev with st_balloons => true | _ => false end)
    (trace (disease_information "Tomato___HeALTHy"
              {[ "Tomato___HeALTHy" := ∅ ]})) = true.
Proof.
  rewrite (healthy_test_ignores_case "Tomato___" "HeALTHy" ""
             {[ "Tomato___HeALTHy" := ∅ ]} ∅).
  - reflexivity.
  - reflexivity.
  - vm_compute. reflexivity.
Defined.

(** ** The information blocks *)

(** X12: the healthy block shows the title, the description, the symptoms
    and the prevention text, never the remedy: whatever remedy the entry of
    a healthy class holds, the information block is the same. *)
Theorem healthy_block_ignores_remedy (predicted_class remedy : string)
    (disease_info : gmap string Info) (info : Info) :
  Str.contains "healthy" (Str.lower predicted_class) = true ->
  disease_information predicted_class
    (<[predicted_class := <["remedy" := remedy]> info]> disease_info) =
  disease_information predicted_class
    (<[predicted_class := info]> disease_info).
Proof.
  intros Hh. unfold disease_information.
  rewrite !lookup_insert_eq, Hh. unfold healthy_branch, get.
  by rewrite !lookup_insert_ne.
Qed.

Lemma healthy_block_ignores_remedy_witness :
  disease_information "Apple___healthy"
    (<["Apple___healthy" := <["remedy" := "none"]> ∅]> Sample.info_A) =
  disease_information "Apple___healthy"
    (<["Apple___healthy" := ∅]> Sample.info_A).
Proof.
  apply (healthy_block_ignores_remedy "Apple___healthy" "none" Sample.info_A ∅).
  reflexivity.
Defined.

(** X13: for a class with an entry whose label does not contain
    "healthy", the four tabs are shown in the fixed order description,
    symptoms, prevention, remedy; each one shows its field when the entry
    has it (also when the field is the empty string) and its own placeholder
    when it has not; the heading is the title, or the label itself when the
    entry has no title. *)
Theorem disease_sections (predicted_class : string)
    (disease_info : gmap string Info) (info : Info) :
  disease_info !! predicted_class = Some info ->
  Str.contains "healthy" (Str.lower predicted_class) = false ->
  let shown := trace (disease_information predicted_class disease_info) in
  written shown =
    [default "No description available." (info !! "description");
     default "No symptoms information available." (info !! "symptoms");
     default "No prevention information available." (info !! "prevention");
     default "No remedy information available." (info !! "remedy")] /\
  List.filter (fun ev => match ev with
                         | st_subheader _ | st_tabs _ => true
                         | _ => false
                         end) shown =
    [st_subheader "📝 Disease Information";
     st_tabs ["Description"; "Symptoms"; "Prevention"; "Remedy"];
     st_subheader (default predicted_class (info !! "title"))] /\
  existsb is_error shown = false.
Proof.
  intros Hinfo Hh shown. unfold shown, disease_information.
  rewrite !trace_emit_bind, Hinfo, Hh. repeat split; reflexivity.
Qed.

Lemma disease_sections_witness :
  written (trace (disease_information "A"
                    {[ "A" := {[ "symptoms" := "" ]} ]})) =
  ["No description available."; "";
   "No prevention information available."; "No remedy information available."].
Proof.
  destruct (disease_sections "A" {[ "A" := {[ "symptoms" := "" ]} ]}
              {[ "symptoms" := "" ]}) as (Hw & _); [reflexivity|reflexivity|].
  rewrite Hw. vm_compute. reflexivity.
Defined.

(** ** The preview *)

(** X14: column 1 shows the preview exactly when a picture was decoded,
    and then it is the last thing the column shows; the state of the model
    and of the JSON files plays no part. *)
Theorem preview_iff_image (w : World) (o : UploadOption) (image : option Image) :
  outcome (provide_image w o) = Return image ->
  match image with
  | Some img =>
      exists before,
        trace (provide_image w o) = before ++ [st_image img "Your Image"] /\
        existsb is_preview before = false
  | None => existsb is_preview (trace (provide_image w o)) = false
  end.
Proof.
  unfold provide_image.
  destruct o; [destruct (uploaded_file w) as [[| |img]|]
              | destruct (camera_input w) as [[| |img]|]];
    simpl; intros H; try discriminate H; injection H as <-;
    first [reflexivity | eexists [_; _; _]; split; reflexivity].
Qed.

Lemma preview_iff_image_witness :
  exists before,
    trace (provide_image Sample.no_model UploadImage) =
      before ++ [st_image Sample.leaf_rgb "Your Image"] /\
    existsb is_preview before = false.
Proof.
  apply (preview_iff_image Sample.no_model UploadImage (Some Sample.leaf_rgb)).
  reflexivity.
Defined.

(** ** Preprocessing on every mode *)

(** X15: for a valid image of any mode the tensor is well formed: its
    buffer has as many entries as its shape announces, namely 128 * 128
    times the number of bands, and every entry lies between 0 and 1. *)
Theorem preprocess_well_formed (R : Resampler) (image : Image) :
  PIL.resampler_ok R ->
  PIL.valid image = true ->
  length (data (preprocess image)) = size_of (shape (preprocess image)) /\
  length (data (preprocess image))
    = (128 * 128 * PIL.bands (PIL.mode image))%nat /\
  Forall (fun x => (0 <= x <= 1)%Q) (data (preprocess image)).
Proof.
  intros HR Hv.
  pose proof (resize_size image (128, 128)%nat HR) as Hsz.
  pose proof (resize_mode image (128, 128)%nat HR) as Hmode.
  pose proof (resize_valid image (128, 128)%nat HR Hv) as Hv'.
  destruct (valid_pixels _ Hv') as (Hlen & Hbands & Hbytes).
  assert (Hdata : length (data (preprocess image))
                  = (128 * 128 * PIL.bands (PIL.mode image))%nat).
  { rewrite preprocess_unfold. unfold rescaled. cbn [data].
    rewrite length_map, (concat_length_uniform _ _ Hbands), Hlen.
    unfold PIL.width, PIL.height. rewrite Hsz, Hmode. reflexivity. }
  split; [|split; [exact Hdata|]].
  - rewrite Hdata, preprocess_unfold. cbn [shape].
    unfold PIL.array_shape, PIL.width, PIL.height. rewrite Hsz, Hmode.
    cbn [fst snd]. case_decide as Hb; cbn [size_of fold_right].
    + rewrite Hb. lia.
    + lia.
  - rewrite preprocess_unfold. unfold rescaled. cbn [data].
    apply Forall_map. eapply Forall_impl; [exact Hbytes|].
    intros v Hvb. by apply rescale_unit_interval.
Qed.

Lemma preprocess_well_formed_witness :
  length (data (preprocess (H := PIL.nearest) Sample.leaf_gray))
  = (128 * 128 * 1)%nat.
Proof.
  destruct (preprocess_well_formed PIL.nearest Sample.leaf_gray nearest_ok)
    as (_ & Hlen & _); [reflexivity|].
  exact Hlen.
Defined.

(** X16: resizing an image to 128 x 128 beforehand changes nothing: the
    second resize finds the size it asks for and returns the image as it
    is, so the tensor is the same. *)
Theorem preprocess_after_resize (R : Resampler) (image : Image) :
  PIL.resampler_ok R ->
  PIL.resize (PIL.resize image (128, 128)%nat) (128, 128)%nat
    = PIL.resize image (128, 128)%nat /\
  preprocess (PIL.resize image (128, 128)%nat) = preprocess image.
Proof.
  intros HR.
  assert (Hr : PIL.resize (PIL.resize image (128, 128)%nat) (128, 128)%nat
               = PIL.resize image (128, 128)%nat).
  { rewrite <- (resize_size image (128, 128)%nat HR) at 2.
    apply resize_same_size. }
  split; [exact Hr|]. by rewrite !preprocess_unfold, Hr.
Qed.

Lemma preprocess_after_resize_witness :
  preprocess (H := PIL.nearest)
    (PIL.resize (H := PIL.nearest) Sample.leaf_rgb (128, 128)%nat)
  = preprocess (H := PIL.nearest) Sample.leaf_rgb.
Proof.
  apply (preprocess_after_resize PIL.nearest Sample.leaf_rgb nearest_ok).
Defined.

(** ** Runs that stop at the gate *)

Section Completion.

Context {A : Type}.

Lemma ends_with_bind (m : M A) (f : A -> M unit) (a : A) (x : Event) :
  outcome m = Return a ->
  outcome (f a) = Return tt /\ last (trace (f a)) = Some x ->
  outcome (m ≫= f) = Return tt /\ last (trace (m ≫= f)) = Some x.
Proof.
  intros Hm [Ho Hl]. rewrite outcome_bind, trace_bind, Hm.
  split; [exact Ho|]. rewrite last_app, Hl. reflexivity.
Qed.

End Completion.

Lemma load_class_names_outcome (w : World) :
  match class_names_json w with
  | Some unreadable | Some malformed => true
  | _ => false
  end = false ->
  outcome (load_class_names w) =
  Return match class_names_json w with
         | Some (document l) => l
         | _ => []
         end.
Proof.
  unfold load_class_names. by destruct (class_names_json w) as [[| |l]|].
Qed.

Lemma load_disease_info_outcome (w : World) :
  match disease_info_json w with
  | Some unreadable | Some malformed => true
  | _ => false
  end = false ->
  outcome (load_disease_info w) =
  Return match disease_info_json w with
         | Some (document d) => d
         | _ => ∅
         end.
Proof.
  unfold load_disease_info. by destruct (disease_info_json w) as [[| |d]|].
Qed.

Lemma provide_image_returns (w : World) :
  match upload_option w with
  | UploadImage =>
      match uploaded_file w with Some damaged => true | _ => false end
  | CameraCapture =>
      match camera_input w with
      | Some undecodable | Some damaged => true
      | _ => false
      end
  end = false ->
  exists image, outcome (provide_image w (upload_option w)) = Return image.
Proof.
  unfold provide_image. destruct (upload_option w).
  - destruct (uploaded_file w) as [[| |img]|]; try discriminate; by eexists.
  - destruct (camera_input w) as [[| |img]|]; try discriminate; by eexists.
Qed.

Lemma analysis_result_not_loaded (R : Resampler) image model class_names
    disease_info :
  truth model && truth class_names && truth disease_info = false ->
  outcome (analysis_result image model class_names disease_info) = Return tt /\
  last (trace (analysis_result image model class_names disease_info))
    = Some (st_error not_loaded).
Proof.
  intros Hgate. unfold analysis_result.
  destruct (truth disease_info) eqn:Hd, image, model, class_names;
    simpl in Hgate |- *; try discriminate Hgate; rewrite ?Hd; split; reflexivity.
Qed.

(** X17: when a resource is unavailable (the model does not load, a JSON
    file is missing or holds an empty document) and nothing raises before
    the analysis column (every JSON file that exists can be read and
    parses, a captured frame decodes, and the picture, if there is one, has
    sound pixel data), the run completes without an exception and the last
    thing it shows is the "not fully loaded" error. *)
Theorem run_completes_when_not_loaded (w : World) :
  raises_before_gate w = false ->
  resource_unavailable w = true ->
  outcome (main w) = Return tt /\
  last (trace (main w)) = Some (st_error not_loaded).
Proof.
  unfold raises_before_gate, resource_unavailable.
  intros Hraise Hun.
  apply orb_false_iff in Hraise as [Hraise Himg].
  apply orb_false_iff in Hraise as [Hnames Hinfo].
  destruct (provide_image_returns w Himg) as [image Himage].
  unfold main.
  eapply ends_with_bind; [apply load_app_model_total|].
  eapply ends_with_bind; [by apply load_class_names_outcome|].
  eapply ends_with_bind; [by apply load_disease_info_outcome|].
  eapply ends_with_bind; [apply page_setup_run|].
  eapply ends_with_bind; [reflexivity|].
  eapply ends_with_bind; [exact Himage|].
  apply analysis_result_not_loaded.
  destruct (trained_model_keras w); [reflexivity|reflexivity|].
  destruct (class_names_json w) as [[| |l]|]; try reflexivity.
  destruct (disease_info_json w) as [[| |d]|];
    [apply andb_false_r | apply andb_false_r | | apply andb_false_r].
  cbn [orb] in Hun. apply orb_true_iff in Hun as [Hun|Hun];
    apply negb_true_iff in Hun; rewrite Hun;
    [reflexivity | apply andb_false_r].
Qed.

(** A picture with damaged pixel data stops the run at the preview, in
    upload mode too: the [try] of the upload branch covers [Image.open]
    only. *)
Example damaged_upload_raises_at_preview :
  main Sample.damaged_upload =
  Run (trace (page_setup Sample.damaged_upload) ++
       [st_columns "[1, 1.2]"; st_with "col1"; st_header "1. Provide an Image";
        st_file_uploader "Click to upload a plant leaf image:"
          ["jpg"; "png"; "jpeg"; "bmp"; "webp"]])
      (Raise (mk_exn OSError "image file is truncated")).
Proof. vm_compute. reflexivity. Qed.

Lemma run_completes_when_not_loaded_witness :
  outcome (main Sample.no_model) = Return tt /\
  last (trace (main Sample.no_model)) = Some (st_error not_loaded).
Proof.
  apply (run_completes_when_not_loaded Sample.no_model); reflexivity.
Defined.

(** ** A complete run *)

Section EndToEnd.

Context {A : Type}.

Lemma shows_bind (m : M A) (f : A -> M unit) (a : A) (x : Event) (n : nat) :
  outcome m = Return a ->
  no_inference (trace m) = true ->
  outcome (f a) = Return tt /\ x ∈ trace (f a) /\
    calls is_predict (trace (f a)) = n ->
  outcome (m ≫= f) = Return tt /\ x ∈ trace (m ≫= f) /\
    calls is_predict (trace (m ≫= f)) = n.
Proof.
  intros Hm Hq (Ho & Hx & Hn). rewrite outcome_bind, trace_bind, Hm.
  split; [exact Ho|]. split.
  - apply elem_of_app. by right.
  - destruct (no_inference_calls _ Hq) as [Hp _].
    by rewrite calls_app, Hp, Hn.
Qed.

End EndToEnd.

(** X18: with a model that loads, a non-empty label list, a non-empty
    dictionary and an uploaded picture, if [predict] returns on the
    preprocessed picture and the predicted index is inside the label list,
    then the run completes, makes exactly one [predict] call, and shows the
    label at the predicted index as the detected disease. *)
Theorem complete_run_shows_predicted_label (w : World) (model : Model)
    (class_names : list string) (disease_info : gmap string Info)
    (img : Image) (predictions : ndarray Q) (p : Prediction) :
  trained_model_keras w = saved_model model ->
  class_names_json w = Some (document class_names) ->
  disease_info_json w = Some (document disease_info) ->
  upload_option w = UploadImage ->
  uploaded_file w = Some (picture img) ->
  truth class_names = true ->
  truth disease_info = true ->
  predict model (preprocess (H := resampler w) img) = Return predictions ->
  interpret predictions class_names = Return p ->
  outcome (main w) = Return tt /\
  st_metric "c1" "Detected Disease:" (predicted_class p) ∈ trace (main w) /\
  calls is_predict (trace (main w)) = 1%nat.
Proof.
  intros Hm Hn Hd Hopt Hup Htn Htd Hpred Hint. unfold main.
  eapply shows_bind;
    [apply load_app_model_total | apply load_app_model_no_inference|].
  rewrite Hm.
  eapply shows_bind;
    [apply load_class_names_outcome; by rewrite Hn
    | apply load_class_names_no_inference|].
  rewrite Hn.
  eapply shows_bind;
    [apply load_disease_info_outcome; by rewrite Hd
    | apply load_disease_info_no_inference|].
  rewrite Hd.
  eapply shows_bind; [apply page_setup_run | reflexivity|].
  eapply shows_bind; [reflexivity | reflexivity|].
  rewrite Hopt.
  assert (Himg : provide_image w UploadImage =
            Run [st_with "col1"; st_header "1. Provide an Image";
                 st_file_uploader "Click to upload a plant leaf image:"
                   ["jpg"; "png"; "jpeg"; "bmp"; "webp"];
                 st_image img "Your Image"] (Return (Some img))).
  { unfold provide_image. by rewrite Hup. }
  eapply shows_bind;
    [by rewrite Himg | apply provide_image_no_inference|].
  pose proof (prediction_logic_outcome (resampler w) img model class_names) as Ho.
  rewrite Hpred, Hint in Ho.
  assert (Hb : outcome (confidence_banner (confidence p)) = Return tt)
    by (unfold confidence_banner; by destruct (confidence_tier _)).
  assert (Hi : outcome (disease_information (predicted_class p) disease_info)
               = Return tt).
  { unfold disease_information. rewrite !outcome_emit_bind.
    destruct (disease_info !! predicted_class p); [|reflexivity].
    by destruct (Str.contains _ _). }
  unfold analysis_result. split; [|split].
  - rewrite !outcome_emit_bind, Htn, Htd. cbn [truth object_truthy andb].
    rewrite outcome_bind, Ho, outcome_bind.
    unfold result_display. rewrite !outcome_emit_bind, Hb. exact Hi.
  - rewrite !trace_emit_bind, Htn, Htd. cbn [truth object_truthy andb].
    rewrite trace_bind, Ho, prediction_logic_trace, trace_bind.
    unfold result_display at 1. rewrite !outcome_emit_bind, Hb.
    unfold result_display. rewrite !trace_emit_bind.
    apply list_elem_of_In. simpl. tauto.
  - rewrite !trace_emit_bind, Htn, Htd. cbn [truth object_truthy andb].
    rewrite trace_bind, Ho, prediction_logic_trace.
    destruct (no_inference_calls _ (presentation_no_inference p disease_info))
      as [Hp _].
    change (?a :: ?b :: ?l ++ ?t) with ([a; b] ++ l ++ t).
    rewrite !calls_app, Hp. reflexivity.
Qed.

Lemma complete_run_shows_predicted_label_witness :
  outcome (main Sample.ready) = Return tt /\
  st_metric "c1" "Detected Disease:" "B" ∈ trace (main Sample.ready) /\
  calls is_predict (trace (main Sample.ready)) = 1%nat.
Proof.
  apply (complete_run_shows_predicted_label Sample.ready Sample.two_class
           Sample.labels Sample.info_A Sample.leaf_rgb
           (mk_ndarray [1; 2]%nat [2 # 10; 8 # 10]%Q)
           (mk_prediction 1 (8 # 10) "B"));
    reflexivity.
Defined.

